(** * Screen-marker calibration choreography

    A shallow embedding of [ScreenMarkerChoreographyPlugin]
    (pupil_src/shared_modules/calibration_choreography/screen_marker_plugin.py)
    and the properties of its per-frame state machine.

    Conventions.
    - The plugin object is the record [plugin]; every method is a function
      that takes the object and returns the updated object.
    - Python floats that occur in the choreography are exact dyadic
      rationals (0.25, 0.5, ...) or integers; positions and timestamps are
      in [Q], the frame counters in [Z].  [screen_marker_state] starts at
      0.0 and is only ever incremented by one or reset to zero, so [Z]
      represents it exactly.
    - Calls to collaborators that only produce output (audio, logger, the
      finish_* sinks of the base class) are recorded, in order, in the
      [trace] field.  What collaborators return (the circle tracker, GLFW)
      is an input of the step.
    - Rendering code (OpenGL drawing, fonts, menus) keeps no state that the
      choreography reads and is left out. *)

From Stdlib Require Import ZArith QArith List String Bool Lia.
Import ListNotations.

Local Open Scope Z_scope.

(** ** Data *)

(** The two enumerations of base_plugin that the plugin branches on. *)
Inductive GazeDimensionality := GAZE_3D | GAZE_2D.
Inductive ChoreographyMode := CALIBRATION | ACCURACY_TEST.

Definition GazeDimensionality_eqb (a b : GazeDimensionality) : bool :=
  match a, b with
  | GAZE_3D, GAZE_3D | GAZE_2D, GAZE_2D => true
  | _, _ => false
  end.

Definition ChoreographyMode_eqb (a b : ChoreographyMode) : bool :=
  match a, b with
  | CALIBRATION, CALIBRATION | ACCURACY_TEST, ACCURACY_TEST => true
  | _, _ => false
  end.

(** A pair of floats: a normalized or an image position. *)
Definition point := (Q * Q)%type.
Definition site := point.

(** The part of [g_pool] that [start] reads. *)
Record GPool := {
  capture_online : bool;
  detection_mapping_mode : string
}.

(** One dictionary returned by the circle tracker. *)
Record marker := {
  marker_type : string;
  img_pos : point;
  norm_pos : point
}.

(** A world frame.  [frame.gray] is only ever handed to the circle tracker;
    [tracked] is what [circle_tracker.update(frame.gray)] returns for it. *)
Record Frame := {
  timestamp : Q;
  tracked : list marker
}.

(** The dictionary [ref] built in [recent_events]. *)
Record Ref := {
  ref_norm_pos : point;
  ref_screen_pos : point;
  ref_timestamp : Q
}.

(** What GLFW answers about the marker window during one call of
    [gl_display_in_window]. *)
Record Glfw := {
  glfwWindowShouldClose : bool;
  glfwGetFramebufferSize : Z * Z
}.

Inductive glfw_action := GLFW_RELEASE | GLFW_PRESS | GLFW_REPEAT.

Definition glfw_action_eqb (a b : glfw_action) : bool :=
  match a, b with
  | GLFW_RELEASE, GLFW_RELEASE | GLFW_PRESS, GLFW_PRESS
  | GLFW_REPEAT, GLFW_REPEAT => true
  | _, _ => false
  end.

Definition GLFW_KEY_ESCAPE : Z := 256.

Section Choreography.

(** The items of [events["pupil"]] are opaque to the plugin. *)
Context {Datum : Type}.

(** [events.get("frame")] and [events["pupil"]]. *)
Record Events := {
  frame : option Frame;
  pupil : list Datum
}.

(** Output sent to collaborators. *)
Inductive effect :=
| Log_error_requires_capture
| Audio_say_starting (mode : ChoreographyMode)
| Log_info_starting (mode : ChoreographyMode)
| Audio_say_stopping (mode : ChoreographyMode)
| Log_info_stopping (mode : ChoreographyMode)
| Audio_tink
| Log_warning_markers (n : nat)
| Log_debug_moving (s : site)
| Finish_calibration (pupils : list Datum) (refs : list Ref)
| Finish_accuracy_test (pupils : list Datum) (refs : list Ref).

(** The attributes of the plugin object that the choreography reads or
    writes.  [window] is [true] when [self._window] holds a window. *)
Record plugin := {
  g_pool : GPool;
  current_mode : ChoreographyMode;
  is_active : bool;
  screen_marker_state : Z;
  sample_duration : Z;
  lead_in : Z;
  lead_out : Z;
  active_site : option site;
  sites : list site;
  display_pos : option site;
  on_position : bool;
  pos : option point;
  window : bool;
  clicks_to_close : Z;
  markers : list marker;
  ref_list : list Ref;
  pupil_list : list Datum;
  trace : list effect
}.

(** Attribute assignment. *)
Definition set_is_active (v : _) (self : plugin) : plugin :=
  {| g_pool := g_pool self; current_mode := current_mode self; is_active := v;
     screen_marker_state := screen_marker_state self;
     sample_duration := sample_duration self; lead_in := lead_in self;
     lead_out := lead_out self; active_site := active_site self;
     sites := sites self; display_pos := display_pos self;
     on_position := on_position self; pos := pos self; window := window self;
     clicks_to_close := clicks_to_close self; markers := markers self;
     ref_list := ref_list self; pupil_list := pupil_list self;
     trace := trace self |}.

Definition set_screen_marker_state (v : _) (self : plugin) : plugin :=
  {| g_pool := g_pool self; current_mode := current_mode self;
     is_active := is_active self; screen_marker_state := v;
     sample_duration := sample_duration self; lead_in := lead_in self;
     lead_out := lead_out self; active_site := active_site self;
     sites := sites self; display_pos := display_pos self;
     on_position := on_position self; pos := pos self; window := window self;
     clicks_to_close := clicks_to_close self; markers := markers self;
     ref_list := ref_list self; pupil_list := pupil_list self;
     trace := trace self |}.

Definition set_active_site (v : _) (self : plugin) : plugin :=
  {| g_pool := g_pool self; current_mode := current_mode self;
     is_active := is_active self;
     screen_marker_state := screen_marker_state self;
     sample_duration := sample_duration self; lead_in := lead_in self;
     lead_out := lead_out self; active_site := v; sites := sites self;
     display_pos := display_pos self; on_position := on_position self;
     pos := pos self; window := window self;
     clicks_to_close := clicks_to_close self; markers := markers self;
     ref_list := ref_list self; pupil_list := pupil_list self;
     trace := trace self |}.

Definition set_sites (v : _) (self : plugin) : plugin :=
  {| g_pool := g_pool self; current_mode := current_mode self;
     is_active := is_active self;
     screen_marker_state := screen_marker_state self;
     sample_duration := sample_duration self; lead_in := lead_in self;
     lead_out := lead_out self; active_site := active_site self; sites := v;
     display_pos := display_pos self; on_position := on_position self;
     pos := pos self; window := window self;
     clicks_to_close := clicks_to_close self; markers := markers self;
     ref_list := ref_list self; pupil_list := pupil_list self;
     trace := trace self |}.

Definition set_display_pos (v : _) (self : plugin) : plugin :=
  {| g_pool := g_pool self; current_mode := current_mode self;
     is_active := is_active self;
     screen_marker_state := screen_marker_state self;
     sample_duration := sample_duration self; lead_in := lead_in self;
     lead_out := lead_out self; active_site := active_site self;
     sites := sites self; display_pos := v; on_position := on_position self;
     pos := pos self; window := window self;
     clicks_to_close := clicks_to_close self; markers := markers self;
     ref_list := ref_list self; pupil_list := pupil_list self;
     trace := trace self |}.

Definition set_on_position (v : _) (self : plugin) : plugin :=
  {| g_pool := g_pool self; current_mode := current_mode self;
     is_active := is_active self;
     screen_marker_state := screen_marker_state self;
     sample_duration := sample_duration self; lead_in := lead_in self;
     lead_out := lead_out self; active_site := active_site self;
     sites := sites self; display_pos := display_pos self; on_position := v;
     pos := pos self; window := window self;
     clicks_to_close := clicks_to_close self; markers := markers self;
     ref_list := ref_list self; pupil_list := pupil_list self;
     trace := trace self |}.

Definition set_pos (v : _) (self : plugin) : plugin :=
  {| g_pool := g_pool self; current_mode := current_mode self;
     is_active := is_active self;
     screen_marker_state := screen_marker_state self;
     sample_duration := sample_duration self; lead_in := lead_in self;
     lead_out := lead_out self; active_site := active_site self;
     sites := sites self; display_pos := display_pos self;
     on_position := on_position self; pos := v; window := window self;
     clicks_to_close := clicks_to_close self; markers := markers self;
     ref_list := ref_list self; pupil_list := pupil_list self;
     trace := trace self |}.

Definition set_window (v : _) (self : plugin) : plugin :=
  {| g_pool := g_pool self; current_mode := current_mode self;
     is_active := is_active self;
     screen_marker_state := screen_marker_state self;
     sample_duration := sample_duration self; lead_in := lead_in self;
     lead_out := lead_out self; active_site := active_site self;
     sites := sites self; display_pos := display_pos self;
     on_position := on_position self; pos := pos self; window := v;
     clicks_to_close := clicks_to_close self; markers := markers self;
     ref_list := ref_list self; pupil_list := pupil_list self;
     trace := trace self |}.

Definition set_clicks_to_close (v : _) (self : plugin) : plugin :=
  {| g_pool := g_pool self; current_mode := current_mode self;
     is_active := is_active self;
     screen_marker_state := screen_marker_state self;
     sample_duration := sample_duration self; lead_in := lead_in self;
     lead_out := lead_out self; active_site := active_site self;
     sites := sites self; display_pos := display_pos self;
     on_position := on_position self; pos := pos self; window := window self;
     clicks_to_close := v; markers := markers self; ref_list := ref_list self;
     pupil_list := pupil_list self; trace := trace self |}.

Definition set_markers (v : _) (self : plugin) : plugin :=
  {| g_pool := g_pool self; current_mode := current_mode self;
     is_active := is_active self;
     screen_marker_state := screen_marker_state self;
     sample_duration := sample_duration self; lead_in := lead_in self;
     lead_out := lead_out self; active_site := active_site self;
     sites := sites self; display_pos := display_pos self;
     on_position := on_position self; pos := pos self; window := window self;
     clicks_to_close := clicks_to_close self; markers := v;
     ref_list := ref_list self; pupil_list := pupil_list self;
     trace := trace self |}.

Definition set_ref_list (v : _) (self : plugin) : plugin :=
  {| g_pool := g_pool self; current_mode := current_mode self;
     is_active := is_active self;
     screen_marker_state := screen_marker_state self;
     sample_duration := sample_duration self; lead_in := lead_in self;
     lead_out := lead_out self; active_site := active_site self;
     sites := sites self; display_pos := display_pos self;
     on_position := on_position self; pos := pos self; window := window self;
     clicks_to_close := clicks_to_close self; markers := markers self;
     ref_list := v; pupil_list := pupil_list self; trace := trace self |}.

Definition set_pupil_list (v : _) (self : plugin) : plugin :=
  {| g_pool := g_pool self; current_mode := current_mode self;
     is_active := is_active self;
     screen_marker_state := screen_marker_state self;
     sample_duration := sample_duration self; lead_in := lead_in self;
     lead_out := lead_out self; active_site := active_site self;
     sites := sites self; display_pos := display_pos self;
     on_position := on_position self; pos := pos self; window := window self;
     clicks_to_close := clicks_to_close self; markers := markers self;
     ref_list := ref_list self; pupil_list := v; trace := trace self |}.

Definition set_trace (v : _) (self : plugin) : plugin :=
  {| g_pool := g_pool self; current_mode := current_mode self;
     is_active := is_active self;
     screen_marker_state := screen_marker_state self;
     sample_duration := sample_duration self; lead_in := lead_in self;
     lead_out := lead_out self; active_site := active_site self;
     sites := sites self; display_pos := display_pos self;
     on_position := on_position self; pos := pos self; window := window self;
     clicks_to_close := clicks_to_close self; markers := markers self;
     ref_list := ref_list self; pupil_list := pupil_list self; trace := v |}.

Definition emit (e : effect) (self : plugin) : plugin :=
  set_trace (trace self ++ [e]) self.

(** ** Site catalogue *)

(** [__site_locations]: four guarded returns; a call that matches none of
    them falls off the end and returns [None]. *)
Definition site_locations (dim : GazeDimensionality) (mode : ChoreographyMode)
  : option (list site) :=
  if GazeDimensionality_eqb dim GAZE_3D && ChoreographyMode_eqb mode CALIBRATION
  then Some [ (1#2, 1#2); (0, 1); (1, 1); (1, 0); (0, 0) ]%Q
  else
  if GazeDimensionality_eqb dim GAZE_3D && ChoreographyMode_eqb mode ACCURACY_TEST
  then Some [ (1#4, 1#2); (1#2, 1#4); (3#4, 1#2); (1#2, 3#4) ]%Q
  else
  if GazeDimensionality_eqb dim GAZE_2D && ChoreographyMode_eqb mode CALIBRATION
  then Some [ (1#4, 1#2); (0, 1#2); (0, 1); (1#2, 1); (1, 1);
              (1, 1#2); (1, 0); (1#2, 0); (0, 0); (3#4, 1#2) ]%Q
  else
  if GazeDimensionality_eqb dim GAZE_2D && ChoreographyMode_eqb mode ACCURACY_TEST
  then Some [ (1#2, 1#2); (1#4, 1#4); (1#4, 3#4); (3#4, 3#4); (3#4, 1#4) ]%Q
  else None.

(** ** Construction *)

(** [__init__]: a plugin attached to [pool], with the lists of the base
    class empty and the routine inactive. *)
Definition init (pool : GPool) (mode : ChoreographyMode) (sample_dur : Z)
  : plugin :=
  {| g_pool := pool; current_mode := mode; is_active := false;
     screen_marker_state := 0;
     sample_duration := sample_dur;
     lead_in := 25;
     lead_out := 5;
     active_site := None; sites := [];
     display_pos := Some (-1, -1)%Q;
     on_position := false; pos := None;
     window := false;
     clicks_to_close := 5;
     markers := []; ref_list := []; pupil_list := []; trace := [] |}.

(** ** Base class *)

(** Modelled from the spec: [CalibrationChoreographyPlugin.start] of
    base_plugin.py is not part of the sources; the specification says that a
    successful start "transitions to Active". *)
Definition super_start (self : plugin) : plugin := set_is_active true self.

(** Modelled from the spec: [CalibrationChoreographyPlugin.stop] of
    base_plugin.py is not part of the sources; the specification says that
    completing "transitions to Inactive". *)
Definition super_stop (self : plugin) : plugin := set_is_active false self.

(** ** Window *)

(** [open_window]: creates the window unless there is one. *)
Definition open_window (self : plugin) : plugin :=
  if negb (window self) then set_window true self else self.

(** [close_window]: destroys the window if there is one. *)
Definition close_window (self : plugin) : plugin :=
  if window self then set_window false self else self.

(** ** Life cycle *)

(** [stop].  The attributes [smooth_pos] and [counter] written here are read
    nowhere; [screen_marker_state] is not touched. *)
Definition stop (self : plugin) : plugin :=
  let self := emit (Audio_say_stopping (current_mode self)) self in
  let self := emit (Log_info_stopping (current_mode self)) self in
  let self := close_window self in
  let self :=
    if ChoreographyMode_eqb (current_mode self) CALIBRATION
    then emit (Finish_calibration (pupil_list self) (ref_list self)) self
    else self in
  let self :=
    if ChoreographyMode_eqb (current_mode self) ACCURACY_TEST
    then emit (Finish_accuracy_test (pupil_list self) (ref_list self)) self
    else self in
  super_stop self.

(** [start].  [None] stands for a Python exception: [__site_locations]
    returned [None], or [pop(0)] met an empty list. *)
Definition start (self : plugin) : option plugin :=
  if negb (capture_online (g_pool self))
  then Some (emit Log_error_requires_capture self)
  else
    let self := super_start self in
    let self := emit (Audio_say_starting (current_mode self)) self in
    let self := emit (Log_info_starting (current_mode self)) self in
    let dim := if String.eqb (detection_mapping_mode (g_pool self)) "3d"
               then GAZE_3D else GAZE_2D in
    match site_locations dim (current_mode self) with
    | None => None
    | Some [] => None
    | Some (first :: rest) =>
        let self := set_sites rest self in
        let self := set_active_site (Some first) self in
        let self := set_ref_list [] self in
        let self := set_pupil_list [] self in
        let self := set_clicks_to_close 5 self in
        Some (open_window self)
    end.

(** ** Per-frame update *)

Definition is_ref (m : marker) : bool := String.eqb (marker_type m) "Ref".

(** [lead_in < screen_marker_state < lead_in + sample_duration] *)
Definition sample_window (self : plugin) : bool :=
  (lead_in self <? screen_marker_state self)
  && (screen_marker_state self <? lead_in self + sample_duration self).

(** [recent_events], lines 200-221: run the tracker, keep the Ref markers,
    take the position of the first one, warn when there are several. *)
Definition update_markers (fr : Frame) (self : plugin) : plugin :=
  let self := set_markers (filter is_ref (tracked fr)) self in
  let self :=
    match markers self with
    | m :: _ => set_pos (Some (norm_pos m)) self
    | [] => set_pos None self
    end in
  if (1 <? List.length (markers self))%nat
  then emit (Log_warning_markers (List.length (markers self)))
            (emit Audio_tink self)
  else self.

(** [recent_events], lines 230-243: the reference sample, the pupil data
    and the clamp of the counter.  [marker_pos] and [self.pos] are the
    positions of the first marker, set in the lines above. *)
Definition save_samples (on_pos : bool) (fr : Frame) (events : Events)
  (self : plugin) : plugin :=
  let self :=
    match markers self with
    | m :: _ =>
        if on_pos
        then set_ref_list
               (ref_list self
                ++ [ {| ref_norm_pos := norm_pos m;
                        ref_screen_pos := img_pos m;
                        ref_timestamp := timestamp fr |} ]) self
        else self
    | [] => self
    end in
  (* always save pupil positions *)
  let self := set_pupil_list (pupil_list self ++ pupil events) self in
  if on_pos && (0 <? List.length (markers self))%nat
  then set_screen_marker_state
         (Z.min (sample_duration self + lead_in self)
                (screen_marker_state self)) self
  else self.

(** [recent_events], lines 262-265. *)
Definition publish (on_pos : bool) (self : plugin) : plugin :=
  let self := set_display_pos (active_site self) self in
  set_on_position on_pos self.

(** [recent_events], lines 245-265: animate the screen marker.  The boolean
    is [true] when the method executed [return]. *)
Definition animate (on_pos : bool) (self : plugin) : plugin * bool :=
  if screen_marker_state self
     <? sample_duration self + lead_in self + lead_out self
  then
    let self :=
      if (0 <? List.length (markers self))%nat || negb on_pos
      then set_screen_marker_state (screen_marker_state self + 1) self
      else self in
    (publish on_pos self, false)
  else
    let self := set_screen_marker_state 0 self in
    match sites self with
    | [] => (stop self, true)
    | next :: rest =>
        let self := set_sites rest self in
        let self := set_active_site (Some next) self in
        let self := emit (Log_debug_moving next) self in
        (publish on_pos self, false)
    end.

(** The body of [if self.is_active and frame:] in [recent_events]. *)
Definition process_frame (fr : Frame) (events : Events) (self : plugin)
  : plugin * bool :=
  if clicks_to_close self <=? 0 then (stop self, true)
  else
    let self := update_markers fr self in
    let on_pos := sample_window self in
    let self := save_samples on_pos fr events self in
    animate on_pos self.

(** [gl_display_in_window], without the drawing. *)
Definition gl_display_in_window (glfw : Glfw) (self : plugin) : plugin :=
  if glfwWindowShouldClose glfw then stop self
  else
    let '(w, h) := glfwGetFramebufferSize glfw in
    if (w =? 0) && (h =? 0) then stop self
    else self.

(** [recent_events]. *)
Definition recent_events (glfw : Glfw) (events : Events) (self : plugin)
  : plugin :=
  let '(self, returned) :=
    match frame events with
    | Some fr =>
        if is_active self then process_frame fr events self
        else (self, false)
    | None => (self, false)
    end in
  if returned then self
  else if window self then gl_display_in_window glfw self
  else self.

(** ** Window callbacks *)

(** [on_window_key] *)
Definition on_window_key (key : Z) (action : glfw_action) (self : plugin)
  : plugin :=
  if glfw_action_eqb action GLFW_PRESS
  then if key =? GLFW_KEY_ESCAPE then set_clicks_to_close 0 self else self
  else self.

(** [on_window_mouse_button] *)
Definition on_window_mouse_button (action : glfw_action) (self : plugin)
  : plugin :=
  if glfw_action_eqb action GLFW_PRESS
  then set_clicks_to_close (clicks_to_close self - 1) self
  else self.

(** ** Runs *)

(** What the host and GLFW deliver to the plugin.  The two callbacks are
    registered on the marker window in [open_window], so GLFW calls them
    only while that window exists. *)
Inductive input :=
| Tick (glfw : Glfw) (events : Events)
| MouseButton (action : glfw_action)
| Key (key : Z) (action : glfw_action).

Definition deliver (i : input) (self : plugin) : plugin :=
  match i with
  | Tick glfw events => recent_events glfw events self
  | MouseButton action =>
      if window self then on_window_mouse_button action self else self
  | Key key action =>
      if window self then on_window_key key action self else self
  end.

Definition run (inputs : list input) (self : plugin) : plugin :=
  fold_left (fun self i => deliver i self) inputs self.

End Choreography.

Arguments init Datum pool mode sample_dur : clear implicits.
Arguments plugin Datum : clear implicits.
Arguments Events Datum : clear implicits.
Arguments input Datum : clear implicits.
Arguments effect Datum : clear implicits.

(** ** Quantities used in the statements *)

Section Measures.

Context {Datum : Type}.

(** The bound compared with the counter in the marker animation. *)
Definition dwell_total (self : plugin Datum) : Z :=
  sample_duration self + lead_in self + lead_out self.

(** Frames that one site takes when no frame stalls, counted from a counter
    at zero: one per counter value below [dwell_total] and the frame that
    resets the counter. *)
Definition cycle_frames (self : plugin Datum) : Z :=
  Z.max 0 (dwell_total self) + 1.

(** Frames left, when no frame stalls, until the routine stops. *)
Definition frames_left (self : plugin Datum) : Z :=
  (if screen_marker_state self <? dwell_total self
   then dwell_total self - screen_marker_state self + 1
   else 1)
  + cycle_frames self * Z.of_nat (List.length (sites self)).

(** The frame of [events], when it carries at least one Ref marker. *)
Definition detects (events : Events Datum) : bool :=
  match frame events with
  | Some fr => existsb is_ref (tracked fr)
  | None => false
  end.

(** The frame of [events], when it carries no Ref marker. *)
Definition misses (events : Events Datum) : bool :=
  match frame events with
  | Some fr => negb (existsb is_ref (tracked fr))
  | None => false
  end.

Definition detecting_tick (i : input Datum) : bool :=
  match i with
  | Tick _ events => detects events
  | _ => false
  end.

Definition is_press (i : input Datum) : bool :=
  match i with
  | MouseButton GLFW_PRESS => true
  | _ => false
  end.

(** Number of mouse-button presses among [inputs]. *)
Definition presses (inputs : list (input Datum)) : nat :=
  List.length (filter is_press inputs).

(** GLFW reports a window that stays open and has a size. *)
Definition window_stays (glfw : Glfw) : bool :=
  negb (glfwWindowShouldClose glfw)
  && negb ((fst (glfwGetFramebufferSize glfw) =? 0)
           && (snd (glfwGetFramebufferSize glfw) =? 0)).

End Measures.

(** ** Predicates used in the statements *)

Definition in_unit_square (s : site) : Prop :=
  (0 <= fst s <= 1 /\ 0 <= snd s <= 1)%Q.

Definition in_unit_squareb (s : site) : bool :=
  Qle_bool 0 (fst s) && Qle_bool (fst s) 1
  && Qle_bool 0 (snd s) && Qle_bool (snd s) 1.

(** Number of sites of the fixed catalogue. *)
Definition catalog_size (dim : GazeDimensionality) (mode : ChoreographyMode)
  : nat :=
  match dim, mode with
  | GAZE_3D, CALIBRATION => 5
  | GAZE_3D, ACCURACY_TEST => 4
  | GAZE_2D, CALIBRATION => 10
  | GAZE_2D, ACCURACY_TEST => 5
  end.

(** After [n] presses since the start, an active routine has its window
    and at most [5 - n] clicks left. *)
Definition armed {Datum : Type} (n : nat) (self : plugin Datum) : Prop :=
  is_active self = true ->
  window self = true /\ clicks_to_close self <= Z.max 0 (5 - Z.of_nat n).

(** A tick whose frame shows no Ref marker, with the window in place. *)
Definition missing_tick {Datum : Type} (i : input Datum) : bool :=
  match i with
  | Tick glfw events => window_stays glfw && misses events
  | _ => false
  end.

(** A tick whose frame shows exactly one Ref marker, with the window in
    place. *)
Definition single_marker_tick {Datum : Type} (i : input Datum) : bool :=
  match i with
  | Tick glfw events =>
      window_stays glfw
      && match frame events with
         | Some fr => (List.length (filter is_ref (tracked fr)) =? 1)%nat
         | None => false
         end
  | _ => false
  end.

(** What the end-to-end scenario observes of the plugin: activity, dwell
    counter, sites left in the queue, reference samples taken. *)
Definition tally : Type := (bool * Z * nat * nat)%type.

Definition tally_of {Datum : Type} (self : plugin Datum) : tally :=
  (is_active self, screen_marker_state self, List.length (sites self),
   List.length (ref_list self)).

(** The tally after one frame that shows one marker, for lead_in = 25,
    sample_duration = 40 and lead_out = 5. *)
Definition tally_step (T : tally) : tally :=
  let '(a, t, n, r) := T in
  if a
  then if t <? 70
       then (true, t + 1, n, if (25 <? t) && (t <? 65) then S r else r)
       else match n with
            | O => (false, 0, O, r)
            | S n' => (true, 0, n', r)
            end
  else (a, t, n, r).

(** ** A concrete run *)

(** The documented scenario: a fresh plugin in 2D mode, started for a
    calibration, fed one frame per tick. *)

Definition pool_2d : GPool :=
  {| capture_online := true; detection_mapping_mode := "2d" |}.

Definition pool_offline : GPool :=
  {| capture_online := false; detection_mapping_mode := "2d" |}.

Definition fresh : plugin unit := init unit pool_2d CALIBRATION 40.

Definition started : plugin unit :=
  match start fresh with
  | Some p => p
  | None => fresh
  end.

(** The started routine, moved to counter value [t]. *)
Definition at_counter (t : Z) : plugin unit :=
  set_screen_marker_state t started.

Definition quiet : Glfw :=
  {| glfwWindowShouldClose := false; glfwGetFramebufferSize := (1280, 720) |}.

Definition ref_marker (at_pos : point) : marker :=
  {| marker_type := "Ref";
     img_pos := (640 * fst at_pos, 360 * snd at_pos)%Q;
     norm_pos := at_pos |}.

Definition stop_marker : marker :=
  {| marker_type := "Stop"; img_pos := (10, 10)%Q; norm_pos := (0, 0)%Q |}.

(** The events of frame number [n]: timestamp [n], the given tracker
    result and a batch of one gaze datum. *)
Definition frame_events (n : nat) (ms : list marker) : Events unit :=
  {| frame := Some {| timestamp := inject_Z (Z.of_nat n); tracked := ms |};
     pupil := [tt] |}.

(** The site that a schedule of 70 frames per site shows on frame [n]. *)
Definition scheduled_site (n : nat) : site :=
  match site_locations GAZE_2D CALIBRATION with
  | Some l => nth (Nat.min 9 ((n - 1) / 70)) l (0, 0)%Q
  | None => (0, 0)%Q
  end.

(** Frame [n] with exactly one Ref marker, at the scheduled site, next to a
    marker of another type. *)
Definition one_marker_tick (n : nat) : input unit :=
  Tick quiet (frame_events n [stop_marker; ref_marker (scheduled_site n)]).

(** Frame [n] with no Ref marker. *)
Definition dropout_tick (n : nat) : input unit :=
  Tick quiet (frame_events n [stop_marker]).

(** Frame [n] with two Ref markers. *)
Definition two_marker_events (n : nat) : Events unit :=
  frame_events n [ref_marker (1 # 2, 1 # 2)%Q; ref_marker (1 # 4, 1 # 4)%Q].

(** Frames 1 to [k]. *)
Definition one_marker_run (k : nat) : list (input unit) :=
  map one_marker_tick (seq 1 k).

Definition dropout_run (k : nat) : list (input unit) :=
  map dropout_tick (seq 1 k).

(** Frame numbers, out of 1 to [k], on which a run that never stalls takes
    a reference sample: those that find the counter, which then is
    [(n - 1) mod 71], between 26 and 64. *)
Definition sampled_frames (k : nat) : list nat :=
  filter (fun n => (26 <=? (n - 1) mod 71)%nat && ((n - 1) mod 71 <=? 64)%nat)
         (seq 1 k).

(** ** The host's calls and what they leave behind *)

Section Host.

Context {Datum : Type}.

(** [deinit_ui].  The method of the base class that it ends with is not
    part of the sources; [super_deinit_ui] stands for it. *)
Definition deinit_ui (super_deinit_ui : plugin Datum -> plugin Datum)
  (self : plugin Datum) : plugin Datum :=
  let self := if is_active self then stop self else self in
  let self := if window self then close_window self else self in
  super_deinit_ui self.

(** The methods that the host calls on the plugin. *)
Inductive call :=
| Start
| Stop
| Deliver (i : input Datum).

(** One call; [None] stands for a Python exception. *)
Definition perform (c : call) (self : plugin Datum)
  : option (plugin Datum) :=
  match c with
  | Start => start self
  | Stop => Some (stop self)
  | Deliver i => Some (deliver i self)
  end.

Fixpoint perform_all (cs : list call) (self : plugin Datum)
  : option (plugin Datum) :=
  match cs with
  | [] => Some self
  | c :: cs' =>
      match perform c self with
      | Some self' => perform_all cs' self'
      | None => None
      end
  end.

(** The lists that a call of [finish_calibration] or
    [finish_accuracy_test] hands over. *)
Definition handed_over (e : effect Datum)
  : option (list Datum * list Ref) :=
  match e with
  | Finish_calibration pupils refs => Some (pupils, refs)
  | Finish_accuracy_test pupils refs => Some (pupils, refs)
  | _ => None
  end.

(** The hand-overs recorded in a trace, oldest first. *)
Fixpoint hand_overs (tr : list (effect Datum))
  : list (list Datum * list Ref) :=
  match tr with
  | [] => []
  | e :: tr' =>
      match handed_over e with
      | Some lists => lists :: hand_overs tr'
      | None => hand_overs tr'
      end
  end.

(** The reference sample that a frame can give: that of its first Ref
    marker. *)
Definition frame_samples (fr : Frame) : list Ref :=
  match filter is_ref (tracked fr) with
  | m :: _ => [ {| ref_norm_pos := norm_pos m;
                   ref_screen_pos := img_pos m;
                   ref_timestamp := timestamp fr |} ]
  | [] => []
  end.

Definition offered_samples (i : input Datum) : list Ref :=
  match i with
  | Tick _ events =>
      match frame events with
      | Some fr => frame_samples fr
      | None => []
      end
  | _ => []
  end.

(** The samples of the inputs selected by [mask], in order. *)
Fixpoint selected_samples (mask : list bool) (inputs : list (input Datum))
  : list Ref :=
  match mask, inputs with
  | b :: mask', i :: inputs' =>
      (if b then offered_samples i else [])
      ++ selected_samples mask' inputs'
  | _, _ => []
  end.

(** The gaze batch of a tick that carries a frame. *)
Definition gaze_batch (i : input Datum) : list Datum :=
  match i with
  | Tick _ events =>
      match frame events with
      | Some _ => pupil events
      | None => []
      end
  | _ => []
  end.

Definition is_escape (i : input Datum) : bool :=
  match i with
  | Key key GLFW_PRESS => key =? GLFW_KEY_ESCAPE
  | _ => false
  end.

(** [gl_display_in_window], lines 474-480: the number in the text
    "Touch N more times to cancel", when the text is drawn. *)
Definition cancel_prompt (self : plugin Datum) : option Z :=
  if clicks_to_close self <? 5 then Some (clicks_to_close self) else None.

(** Counter values, from the present one on, at which the gate of the
    sampling window is open. *)
Definition slots_left (self : plugin Datum) : Z :=
  Z.max 0 (lead_in self + sample_duration self
           - Z.max (screen_marker_state self) (lead_in self + 1)).

(** What a processed frame makes of [p]: [q] is the plugin after the
    marker animation and [ret] tells whether the method returned there. *)
Definition processed (fr : Frame) (ev : Events Datum)
  (p q : plugin Datum) (ret : bool) : Prop :=
  ref_list q
  = ref_list p ++ (if sample_window p then frame_samples fr else [])
  /\ pupil_list q = pupil_list p ++ pupil ev
  /\ clicks_to_close q = clicks_to_close p
  /\ lead_in q = lead_in p
  /\ sample_duration q = sample_duration p
  /\ lead_out q = lead_out p
  /\ if screen_marker_state p <? dwell_total p
     then
       ret = false
       /\ screen_marker_state q
          = (if (0 <? List.length (filter is_ref (tracked fr)))%nat
                || negb (sample_window p)
             then screen_marker_state p + 1
             else screen_marker_state p)
       /\ sites q = sites p /\ active_site q = active_site p
       /\ is_active q = is_active p /\ window q = window p
       /\ hand_overs (trace q) = hand_overs (trace p)
     else
       match sites p with
       | [] =>
           ret = true
           /\ screen_marker_state q = 0
           /\ sites q = [] /\ active_site q = active_site p
           /\ is_active q = false /\ window q = false
           /\ hand_overs (trace q)
              = hand_overs (trace p) ++ [(pupil_list q, ref_list q)]
       | next :: rest =>
           ret = false
           /\ screen_marker_state q = 0
           /\ sites q = rest /\ active_site q = Some next
           /\ is_active q = is_active p /\ window q = window p
           /\ hand_overs (trace q) = hand_overs (trace p)
       end.

End Host.

(** ** Settings, monitors and drawing *)

(** The attributes that the constructor takes as keywords and that the
    window code reads. *)
Record settings := {
  fullscreen : bool;
  marker_scale : Q;
  monitor_idx : Z
}.

(** The values that occur in the dictionary of [get_init_dict]. *)
Inductive value :=
| VBool (b : bool)
| VFloat (q : Q)
| VInt (z : Z).

(** [get_init_dict], on the settings of the object.  A Python dictionary
    built by three assignments to distinct keys: the list of its items. *)
Definition get_init_dict (s : settings) : list (string * value) :=
  [ ("fullscreen", VBool (fullscreen s));
    ("marker_scale", VFloat (marker_scale s));
    ("monitor_idx", VInt (monitor_idx s)) ]%string.

(** The value passed for keyword [name], if any. *)
Fixpoint kwarg (name : string) (kwargs : list (string * value))
  : option value :=
  match kwargs with
  | [] => None
  | (k, v) :: rest => if String.eqb k name then Some v else kwarg name rest
  end.

Definition init_keywords : list string :=
  [ "fullscreen"; "marker_scale"; "sample_duration"; "monitor_idx" ]%string.

(** What GLFW knows of a monitor: [glfwGetMonitorName] and the size of
    [glfwGetVideoMode]. *)
Record Monitor := {
  monitor_name : string;
  video_width : Z;
  video_height : Z
}.

(** Python's [l[i]]: negative indices count from the end, anything else
    out of range raises IndexError ([None]). *)
Definition py_index {A : Type} (l : list A) (i : Z) : option A :=
  let n := Z.of_nat (List.length l) in
  if (0 <=? i) && (i <? n) then nth_error l (Z.to_nat i)
  else if (- n <=? i) && (i <? 0) then nth_error l (Z.to_nat (n + i))
  else None.

(** [init_ui], lines 142-151: an index outside [range(len(monitors))] is
    replaced by 0, with a warning (the boolean). *)
Definition init_ui_monitor (monitors : list Monitor) (s : settings)
  : settings * bool :=
  if negb ((0 <=? monitor_idx s)
           && (monitor_idx s <? Z.of_nat (List.length monitors)))
  then ({| fullscreen := fullscreen s; marker_scale := marker_scale s;
           monitor_idx := 0 |}, true)
  else (s, false).

(** The monitor and the size with which [open_window] creates the
    window. *)
Record window_request := {
  request_monitor : option Monitor;
  request_width : Z;
  request_height : Z
}.

(** [open_window], lines 334-354, for an object without a window: the
    settings afterwards, the request and whether the warning was logged.
    [monitors] is what [glfwGetMonitors] returns; [None] stands for the
    IndexError of the handler's own [glfwGetMonitors()[0]]. *)
Definition choose_monitor (monitors : list Monitor) (s : settings)
  : option (settings * window_request * bool) :=
  if fullscreen s
  then
    match py_index monitors (monitor_idx s) with
    | Some m =>
        Some (s,
              {| request_monitor := Some m; request_width := video_width m;
                 request_height := video_height m |},
              false)
    | None =>
        let s := {| fullscreen := fullscreen s;
                    marker_scale := marker_scale s; monitor_idx := 0 |} in
        match py_index monitors (monitor_idx s) with
        | Some m =>
            Some (s,
                  {| request_monitor := Some m;
                     request_width := video_width m;
                     request_height := video_height m |},
                  true)
        | None => None
        end
    end
  else
    Some (s,
          {| request_monitor := None; request_width := 640;
             request_height := 360 |},
          false).

(** The float operations that the easing functions use.  [of_int] is
    Python's conversion of an integer to a float, explicit in [float(n)]
    and implicit where an integer meets a float. *)
Class FloatOps (F : Type) := {
  of_int : Z -> F;
  fadd : F -> F -> F;
  fsub : F -> F -> F;
  fmul : F -> F -> F;
  fdiv : F -> F -> F;
  fneg : F -> F;
  fltb : F -> F -> bool
}.

(** Integers up to 2^53 in absolute value are floats, and floats compare
    as the integers they are. *)
Definition float_exact_bound : Z := 9007199254740992.

Definition compares_integers {F : Type} {ops : FloatOps F} : Prop :=
  forall a b : Z,
    Z.abs a <= float_exact_bound -> Z.abs b <= float_exact_bound ->
    fltb (of_int a) (of_int b) = (a <? b).

(** Exact arithmetic on rationals, to evaluate the easing functions. *)
#[export] Instance Q_ops : FloatOps Q := {
  of_int := inject_Z;
  fadd := Qplus;
  fsub := Qminus;
  fmul := Qmult;
  fdiv := Qdiv;
  fneg := Qopp;
  fltb := fun a b => negb (Qle_bool b a)
}.

Section Drawing.

Context {Datum : Type} {F : Type} {ops : FloatOps F}.

(** [easeInOutQuad] *)
Definition easeInOutQuad (t b c d : F) : F :=
  let t := fdiv t (fdiv d (of_int 2)) in
  if fltb t (of_int 1)
  then fadd (fmul (fmul (fdiv c (of_int 2)) t) t) b
  else
    let t := fsub t (of_int 1) in
    fadd (fmul (fdiv (fneg c) (of_int 2))
               (fsub (fmul t (fsub t (of_int 2))) (of_int 1)))
         b.

(** [interp_fn] *)
Definition interp_fn (t b c d start_sample stop_sample : F) : F :=
  if fltb t start_sample then easeInOutQuad t b c start_sample
  else if fltb stop_sample t
       then fsub (of_int 1)
                 (easeInOutQuad (fsub t stop_sample) b c
                    (fsub d stop_sample))
       else of_int 1.

(** [gl_display_in_window], lines 446-453: the opacity of the marker. *)
Definition marker_alpha (self : plugin Datum) : F :=
  interp_fn (of_int (screen_marker_state self)) (of_int 0) (of_int 1)
    (of_int (sample_duration self + lead_in self + lead_out self))
    (of_int (lead_in self))
    (of_int (sample_duration self + lead_in self)).

(** [gl_display_in_window], lines 466-471: whether the feedback dot is
    drawn green rather than red. *)
Definition feedback_green (self : plugin Datum) : bool :=
  (0 <? List.length (markers self))%nat && on_position self.

(** The object: the choreography and the settings. *)
Record screen_marker := {
  choreography : plugin Datum;
  ui : settings
}.

(** [__init__] called with keyword arguments: each parameter takes the
    value passed for it or its default.  [None] stands for the TypeError
    of an unexpected keyword; values of a type other than the default's
    are left out of the model. *)
Definition init_kwargs (pool : GPool) (mode : ChoreographyMode)
  (kwargs : list (string * value)) : option screen_marker :=
  if forallb (fun kv => existsb (String.eqb (fst kv)) init_keywords) kwargs
  then
    match
      match kwarg "fullscreen" kwargs with Some v => v | None => VBool true end,
      match kwarg "marker_scale" kwargs with Some v => v | None => VFloat 1 end,
      match kwarg "sample_duration" kwargs with Some v => v | None => VInt 40 end,
      match kwarg "monitor_idx" kwargs with Some v => v | None => VInt 0 end
    with
    | VBool f, VFloat scale, VInt duration, VInt idx =>
        Some {| choreography := init Datum pool mode duration;
                ui := {| fullscreen := f; marker_scale := scale;
                         monitor_idx := idx |} |}
    | _, _, _, _ => None
    end
  else None.

End Drawing.

(** ** More concrete data *)

(** The started routine with Escape pressed. *)
Definition escaped : plugin unit :=
  deliver (Key GLFW_KEY_ESCAPE GLFW_PRESS) started.

(** The routine cancelled by Escape after 30 frames, the counter being
    inside the sampling window, and started again. *)
Definition cancelled_at_30 : plugin unit :=
  deliver (Key GLFW_KEY_ESCAPE GLFW_PRESS) (run (one_marker_run 30) started).

Definition restarted : plugin unit :=
  match start (recent_events quiet (frame_events 31 []) cancelled_at_30) with
  | Some p => p
  | None => fresh
  end.

(** A call sequence: start, one frame, stop. *)
Definition short_session : list (@call unit) :=
  [Start; Deliver (one_marker_tick 1); Stop].

(** Three frames, two presses and one release of the mouse button. *)
Definition clicked_twice : list (input unit) :=
  [one_marker_tick 1; MouseButton GLFW_PRESS; MouseButton GLFW_RELEASE;
   one_marker_tick 2; MouseButton GLFW_PRESS; one_marker_tick 3].

Definition two_monitors : list Monitor :=
  [ {| monitor_name := "eDP-1"; video_width := 1920; video_height := 1080 |};
    {| monitor_name := "HDMI-1"; video_width := 2560; video_height := 1440 |} ].

(** Settings whose monitor index points past the two monitors. *)
Definition stale_settings : settings :=
  {| fullscreen := true; marker_scale := 1; monitor_idx := 2 |}.

(** * Properties *)

Section Properties.

Context {Datum : Type}.

Implicit Types (p q : plugin Datum) (ev : Events Datum) (fr : Frame).
Implicit Types (b : bool) (glfw : Glfw).

(** Case analysis on the innermost scrutinee of the goal. *)
Ltac split_inner :=
  match goal with
  | |- context [match ?x with | _ => _ end] =>
      lazymatch x with
      | context [match _ with | _ => _ end] => fail
      | _ => destruct x eqn:?
      end
  end.

Ltac frame_rule :=
  intros;
  unfold animate, update_markers, save_samples, publish,
    gl_display_in_window, stop, super_stop, close_window, emit;
  cbn;
  repeat (split_inner; cbn);
  congruence.

(** Attributes that [update_markers] leaves alone. *)

Lemma update_markers_current_mode fr p : current_mode (update_markers fr p) = current_mode p.
Proof. frame_rule. Qed.

Lemma update_markers_is_active fr p : is_active (update_markers fr p) = is_active p.
Proof. frame_rule. Qed.

Lemma update_markers_screen_marker_state fr p : screen_marker_state (update_markers fr p) = screen_marker_state p.
Proof. frame_rule. Qed.

Lemma update_markers_sample_duration fr p : sample_duration (update_markers fr p) = sample_duration p.
Proof. frame_rule. Qed.

Lemma update_markers_lead_in fr p : lead_in (update_markers fr p) = lead_in p.
Proof. frame_rule. Qed.

Lemma update_markers_lead_out fr p : lead_out (update_markers fr p) = lead_out p.
Proof. frame_rule. Qed.

Lemma update_markers_active_site fr p : active_site (update_markers fr p) = active_site p.
Proof. frame_rule. Qed.

Lemma update_markers_sites fr p : sites (update_markers fr p) = sites p.
Proof. frame_rule. Qed.

Lemma update_markers_on_position fr p : on_position (update_markers fr p) = on_position p.
Proof. frame_rule. Qed.

Lemma update_markers_window fr p : window (update_markers fr p) = window p.
Proof. frame_rule. Qed.

Lemma update_markers_clicks_to_close fr p : clicks_to_close (update_markers fr p) = clicks_to_close p.
Proof. frame_rule. Qed.

Lemma update_markers_ref_list fr p : ref_list (update_markers fr p) = ref_list p.
Proof. frame_rule. Qed.

Lemma update_markers_pupil_list fr p : pupil_list (update_markers fr p) = pupil_list p.
Proof. frame_rule. Qed.

(** Attributes that [save_samples] leaves alone. *)

Lemma save_samples_current_mode b fr ev p : current_mode (save_samples b fr ev p) = current_mode p.
Proof. frame_rule. Qed.

Lemma save_samples_is_active b fr ev p : is_active (save_samples b fr ev p) = is_active p.
Proof. frame_rule. Qed.

Lemma save_samples_sample_duration b fr ev p : sample_duration (save_samples b fr ev p) = sample_duration p.
Proof. frame_rule. Qed.

Lemma save_samples_lead_in b fr ev p : lead_in (save_samples b fr ev p) = lead_in p.
Proof. frame_rule. Qed.

Lemma save_samples_lead_out b fr ev p : lead_out (save_samples b fr ev p) = lead_out p.
Proof. frame_rule. Qed.

Lemma save_samples_active_site b fr ev p : active_site (save_samples b fr ev p) = active_site p.
Proof. frame_rule. Qed.

Lemma save_samples_sites b fr ev p : sites (save_samples b fr ev p) = sites p.
Proof. frame_rule. Qed.

Lemma save_samples_on_position b fr ev p : on_position (save_samples b fr ev p) = on_position p.
Proof. frame_rule. Qed.

Lemma save_samples_window b fr ev p : window (save_samples b fr ev p) = window p.
Proof. frame_rule. Qed.

Lemma save_samples_clicks_to_close b fr ev p : clicks_to_close (save_samples b fr ev p) = clicks_to_close p.
Proof. frame_rule. Qed.

Lemma save_samples_markers b fr ev p : markers (save_samples b fr ev p) = markers p.
Proof. frame_rule. Qed.

Lemma save_samples_trace b fr ev p : trace (save_samples b fr ev p) = trace p.
Proof. frame_rule. Qed.

(** Attributes that [publish] leaves alone. *)

Lemma publish_current_mode b p : current_mode (publish b p) = current_mode p.
Proof. frame_rule. Qed.

Lemma publish_is_active b p : is_active (publish b p) = is_active p.
Proof. frame_rule. Qed.

Lemma publish_screen_marker_state b p : screen_marker_state (publish b p) = screen_marker_state p.
Proof. frame_rule. Qed.

Lemma publish_sample_duration b p : sample_duration (publish b p) = sample_duration p.
Proof. frame_rule. Qed.

Lemma publish_lead_in b p : lead_in (publish b p) = lead_in p.
Proof. frame_rule. Qed.

Lemma publish_lead_out b p : lead_out (publish b p) = lead_out p.
Proof. frame_rule. Qed.

Lemma publish_active_site b p : active_site (publish b p) = active_site p.
Proof. frame_rule. Qed.

Lemma publish_sites b p : sites (publish b p) = sites p.
Proof. frame_rule. Qed.

Lemma publish_window b p : window (publish b p) = window p.
Proof. frame_rule. Qed.

Lemma publish_clicks_to_close b p : clicks_to_close (publish b p) = clicks_to_close p.
Proof. frame_rule. Qed.

Lemma publish_markers b p : markers (publish b p) = markers p.
Proof. frame_rule. Qed.

Lemma publish_ref_list b p : ref_list (publish b p) = ref_list p.
Proof. frame_rule. Qed.

Lemma publish_pupil_list b p : pupil_list (publish b p) = pupil_list p.
Proof. frame_rule. Qed.

Lemma publish_trace b p : trace (publish b p) = trace p.
Proof. frame_rule. Qed.

(** Attributes that [animate] leaves alone. *)

Lemma animate_current_mode b p : current_mode (fst (animate b p)) = current_mode p.
Proof. frame_rule. Qed.

Lemma animate_sample_duration b p : sample_duration (fst (animate b p)) = sample_duration p.
Proof. frame_rule. Qed.

Lemma animate_lead_in b p : lead_in (fst (animate b p)) = lead_in p.
Proof. frame_rule. Qed.

Lemma animate_lead_out b p : lead_out (fst (animate b p)) = lead_out p.
Proof. frame_rule. Qed.

Lemma animate_clicks_to_close b p : clicks_to_close (fst (animate b p)) = clicks_to_close p.
Proof. frame_rule. Qed.

Lemma animate_markers b p : markers (fst (animate b p)) = markers p.
Proof. frame_rule. Qed.

Lemma animate_ref_list b p : ref_list (fst (animate b p)) = ref_list p.
Proof. frame_rule. Qed.

Lemma animate_pupil_list b p : pupil_list (fst (animate b p)) = pupil_list p.
Proof. frame_rule. Qed.

(** Attributes that [stop] leaves alone. *)

Lemma stop_current_mode p : current_mode (stop p) = current_mode p.
Proof. frame_rule. Qed.

Lemma stop_screen_marker_state p : screen_marker_state (stop p) = screen_marker_state p.
Proof. frame_rule. Qed.

Lemma stop_sample_duration p : sample_duration (stop p) = sample_duration p.
Proof. frame_rule. Qed.

Lemma stop_lead_in p : lead_in (stop p) = lead_in p.
Proof. frame_rule. Qed.

Lemma stop_lead_out p : lead_out (stop p) = lead_out p.
Proof. frame_rule. Qed.

Lemma stop_active_site p : active_site (stop p) = active_site p.
Proof. frame_rule. Qed.

Lemma stop_sites p : sites (stop p) = sites p.
Proof. frame_rule. Qed.

Lemma stop_on_position p : on_position (stop p) = on_position p.
Proof. frame_rule. Qed.

Lemma stop_clicks_to_close p : clicks_to_close (stop p) = clicks_to_close p.
Proof. frame_rule. Qed.

Lemma stop_markers p : markers (stop p) = markers p.
Proof. frame_rule. Qed.

Lemma stop_ref_list p : ref_list (stop p) = ref_list p.
Proof. frame_rule. Qed.

Lemma stop_pupil_list p : pupil_list (stop p) = pupil_list p.
Proof. frame_rule. Qed.

(** Attributes that [gl_display_in_window] leaves alone. *)

Lemma gl_display_in_window_current_mode glfw p : current_mode (gl_display_in_window glfw p) = current_mode p.
Proof. frame_rule. Qed.

Lemma gl_display_in_window_screen_marker_state glfw p : screen_marker_state (gl_display_in_window glfw p) = screen_marker_state p.
Proof. frame_rule. Qed.

Lemma gl_display_in_window_sample_duration glfw p : sample_duration (gl_display_in_window glfw p) = sample_duration p.
Proof. frame_rule. Qed.

Lemma gl_display_in_window_lead_in glfw p : lead_in (gl_display_in_window glfw p) = lead_in p.
Proof. frame_rule. Qed.

Lemma gl_display_in_window_lead_out glfw p : lead_out (gl_display_in_window glfw p) = lead_out p.
Proof. frame_rule. Qed.

Lemma gl_display_in_window_active_site glfw p : active_site (gl_display_in_window glfw p) = active_site p.
Proof. frame_rule. Qed.

Lemma gl_display_in_window_sites glfw p : sites (gl_display_in_window glfw p) = sites p.
Proof. frame_rule. Qed.

Lemma gl_display_in_window_on_position glfw p : on_position (gl_display_in_window glfw p) = on_position p.
Proof. frame_rule. Qed.

Lemma gl_display_in_window_clicks_to_close glfw p : clicks_to_close (gl_display_in_window glfw p) = clicks_to_close p.
Proof. frame_rule. Qed.

Lemma gl_display_in_window_markers glfw p : markers (gl_display_in_window glfw p) = markers p.
Proof. frame_rule. Qed.

Lemma gl_display_in_window_ref_list glfw p : ref_list (gl_display_in_window glfw p) = ref_list p.
Proof. frame_rule. Qed.

Lemma gl_display_in_window_pupil_list glfw p : pupil_list (gl_display_in_window glfw p) = pupil_list p.
Proof. frame_rule. Qed.

Create Rewrite HintDb plugin_fields.

#[local] Hint Rewrite
  update_markers_current_mode update_markers_is_active
  update_markers_screen_marker_state update_markers_sample_duration
  update_markers_lead_in update_markers_lead_out update_markers_active_site
  update_markers_sites update_markers_on_position update_markers_window
  update_markers_clicks_to_close update_markers_ref_list
  update_markers_pupil_list save_samples_current_mode save_samples_is_active
  save_samples_sample_duration save_samples_lead_in save_samples_lead_out
  save_samples_active_site save_samples_sites save_samples_on_position
  save_samples_window save_samples_clicks_to_close save_samples_markers
  save_samples_trace publish_current_mode publish_is_active
  publish_screen_marker_state publish_sample_duration publish_lead_in
  publish_lead_out publish_active_site publish_sites publish_window
  publish_clicks_to_close publish_markers publish_ref_list publish_pupil_list
  publish_trace animate_current_mode animate_sample_duration animate_lead_in
  animate_lead_out animate_clicks_to_close animate_markers animate_ref_list
  animate_pupil_list stop_current_mode stop_screen_marker_state
  stop_sample_duration stop_lead_in stop_lead_out stop_active_site stop_sites
  stop_on_position stop_clicks_to_close stop_markers stop_ref_list
  stop_pupil_list gl_display_in_window_current_mode
  gl_display_in_window_screen_marker_state
  gl_display_in_window_sample_duration gl_display_in_window_lead_in
  gl_display_in_window_lead_out gl_display_in_window_active_site
  gl_display_in_window_sites gl_display_in_window_on_position
  gl_display_in_window_clicks_to_close gl_display_in_window_markers
  gl_display_in_window_ref_list gl_display_in_window_pupil_list
  : plugin_fields.

(** What the stages write. *)

Lemma update_markers_markers fr p :
  markers (update_markers fr p) = filter is_ref (tracked fr).
Proof. frame_rule. Qed.

Lemma update_markers_warns fr p :
  (1 < List.length (filter is_ref (tracked fr)))%nat ->
  In (Log_warning_markers (List.length (filter is_ref (tracked fr))))
     (trace (update_markers fr p)).
Proof.
  intros Hn. unfold update_markers. cbn.
  destruct (filter is_ref (tracked fr)) as [| m [| m' rest]]; cbn in *;
    try lia.
  apply in_or_app; right; left; reflexivity.
Qed.

Lemma update_markers_sample_window fr p :
  sample_window (update_markers fr p) = sample_window p.
Proof.
  unfold sample_window. now autorewrite with plugin_fields.
Qed.

Lemma save_samples_ref_list b fr ev p :
  ref_list (save_samples b fr ev p) =
  match markers p with
  | m :: _ =>
      if b
      then ref_list p ++ [ {| ref_norm_pos := norm_pos m;
                              ref_screen_pos := img_pos m;
                              ref_timestamp := timestamp fr |} ]
      else ref_list p
  | [] => ref_list p
  end.
Proof. frame_rule. Qed.

Lemma save_samples_pupil_list b fr ev p :
  pupil_list (save_samples b fr ev p) = pupil_list p ++ pupil ev.
Proof. frame_rule. Qed.

(** Inside the sampling window the clamp of the counter changes nothing. *)
Lemma save_samples_screen_marker_state fr ev p :
  screen_marker_state (save_samples (sample_window p) fr ev p)
  = screen_marker_state p.
Proof.
  unfold save_samples, sample_window. cbn.
  destruct (lead_in p <? screen_marker_state p) eqn:E1; cbn;
    [| repeat (split_inner; cbn); reflexivity].
  destruct (Z.ltb_spec (screen_marker_state p)
                       (lead_in p + sample_duration p)); cbn;
    repeat (split_inner; cbn); try reflexivity; lia.
Qed.

Lemma stop_is_active p : is_active (stop p) = false.
Proof. frame_rule. Qed.

Lemma stop_window p : window (stop p) = false.
Proof. frame_rule. Qed.

Lemma publish_on_position b p : on_position (publish b p) = b.
Proof. reflexivity. Qed.

#[local] Hint Rewrite
  update_markers_markers save_samples_ref_list
  save_samples_pupil_list save_samples_screen_marker_state stop_is_active
  stop_window publish_on_position
  : plugin_fields.

Lemma dwell_total_update_markers fr p :
  dwell_total (update_markers fr p) = dwell_total p.
Proof. unfold dwell_total. now autorewrite with plugin_fields. Qed.

Lemma dwell_total_save_samples b fr ev p :
  dwell_total (save_samples b fr ev p) = dwell_total p.
Proof. unfold dwell_total. now autorewrite with plugin_fields. Qed.

Lemma dwell_total_stop p : dwell_total (stop p) = dwell_total p.
Proof. unfold dwell_total. now autorewrite with plugin_fields. Qed.

#[local] Hint Rewrite
  dwell_total_update_markers dwell_total_save_samples dwell_total_stop
  : plugin_fields.

(** The marker animation below the bound: the counter moves unless the
    frame is in the sampling window and shows no marker. *)
Lemma animate_below b p :
  screen_marker_state p < dwell_total p ->
  animate b p =
  (publish b
     (if (0 <? List.length (markers p))%nat || negb b
      then set_screen_marker_state (screen_marker_state p + 1) p
      else p),
   false).
Proof.
  unfold dwell_total, animate. intros Ht.
  destruct (Z.ltb_spec (screen_marker_state p)
              (sample_duration p + lead_in p + lead_out p)); [| lia].
  reflexivity.
Qed.

(** The marker animation at the bound: the counter is reset and the next
    site is taken; without a next site the routine stops. *)
Lemma animate_at_bound b p :
  dwell_total p <= screen_marker_state p ->
  animate b p =
  match sites p with
  | [] => (stop (set_screen_marker_state 0 p), true)
  | next :: rest =>
      (publish b
         (emit (Log_debug_moving next)
            (set_active_site (Some next)
               (set_sites rest (set_screen_marker_state 0 p)))),
       false)
  end.
Proof.
  unfold dwell_total, animate. intros Ht.
  destruct (Z.ltb_spec (screen_marker_state p)
              (sample_duration p + lead_in p + lead_out p)); [lia |].
  cbn. destruct (sites p); reflexivity.
Qed.

Lemma process_frame_cancelled fr ev p :
  clicks_to_close p <= 0 -> process_frame fr ev p = (stop p, true).
Proof.
  intros Hc. unfold process_frame.
  destruct (Z.leb_spec (clicks_to_close p) 0); [reflexivity | lia].
Qed.

Lemma process_frame_live fr ev p :
  0 < clicks_to_close p ->
  process_frame fr ev p =
  animate (sample_window (update_markers fr p))
    (save_samples (sample_window (update_markers fr p)) fr ev
       (update_markers fr p)).
Proof.
  intros Hc. unfold process_frame.
  destruct (Z.leb_spec (clicks_to_close p) 0); [lia | reflexivity].
Qed.

(** The trace only grows. *)

Lemma stop_trace_In (e : effect Datum) p :
  In e (trace p) -> In e (trace (stop p)).
Proof.
  intros H. unfold stop, super_stop, close_window, emit. cbn.
  repeat (split_inner; cbn);
    repeat (apply in_or_app; left); assumption.
Qed.

Lemma animate_trace_In (e : effect Datum) b p :
  In e (trace p) -> In e (trace (fst (animate b p))).
Proof.
  intros H. unfold animate.
  destruct (screen_marker_state p
            <? sample_duration p + lead_in p + lead_out p).
  - cbn [fst]. rewrite publish_trace.
    destruct (_ || _); cbn; assumption.
  - cbv zeta. destruct (sites (set_screen_marker_state 0 p)) eqn:E.
    + cbn [fst]. apply stop_trace_In. assumption.
    + cbn. apply in_or_app; left; assumption.
Qed.

(** ** The per-frame update *)

Lemma gl_display_in_window_cases glfw p :
  gl_display_in_window glfw p = p \/ gl_display_in_window glfw p = stop p.
Proof.
  unfold gl_display_in_window.
  destruct (glfwWindowShouldClose glfw); [now right |].
  destruct (glfwGetFramebufferSize glfw) as [w h].
  destruct ((w =? 0) && (h =? 0)); [now right | now left].
Qed.

Lemma gl_display_in_window_stays glfw p :
  window_stays glfw = true -> gl_display_in_window glfw p = p.
Proof.
  unfold window_stays, gl_display_in_window.
  destruct (glfwWindowShouldClose glfw); [discriminate |].
  destruct (glfwGetFramebufferSize glfw) as [w h]. cbn.
  destruct ((w =? 0) && (h =? 0)); [discriminate | reflexivity].
Qed.

(** An inactive routine stays inactive. *)
Lemma recent_events_inactive glfw ev p :
  is_active p = false -> is_active (recent_events glfw ev p) = false.
Proof.
  intros Ha. unfold recent_events. rewrite Ha.
  assert (E : match frame ev with
              | Some _ => (p, false)
              | None => (p, false)
              end = (p, false)) by (destruct (frame ev); reflexivity).
  rewrite E. destruct (window p); [| assumption].
  destruct (gl_display_in_window_cases glfw p) as [-> | ->];
    [assumption | apply stop_is_active].
Qed.

(** A cancelled routine stops at once. *)
Lemma recent_events_cancelled glfw ev fr p :
  is_active p = true -> frame ev = Some fr -> clicks_to_close p <= 0 ->
  recent_events glfw ev p = stop p.
Proof.
  intros Ha Hf Hc. unfold recent_events.
  rewrite Hf, Ha, (process_frame_cancelled fr ev p Hc). reflexivity.
Qed.

(** A frame that is processed: the three stages, and a stop on top when
    the window goes away. *)
Lemma recent_events_live glfw ev fr p :
  is_active p = true -> frame ev = Some fr -> 0 < clicks_to_close p ->
  let body :=
    fst (animate (sample_window (update_markers fr p))
           (save_samples (sample_window (update_markers fr p)) fr ev
              (update_markers fr p))) in
  recent_events glfw ev p = body \/ recent_events glfw ev p = stop body.
Proof.
  intros Ha Hf Hc body. unfold recent_events.
  rewrite Hf, Ha, (process_frame_live fr ev p Hc). fold body.
  destruct (animate _ _) as [q ret] eqn:E. cbn [fst] in body. subst body.
  destruct ret; [now left |].
  destruct (window q); [| now left].
  apply gl_display_in_window_cases.
Qed.

(** With the window in place, a processed frame is the three stages. *)
Lemma recent_events_live_stays glfw ev fr p :
  is_active p = true -> frame ev = Some fr -> 0 < clicks_to_close p ->
  window_stays glfw = true ->
  recent_events glfw ev p =
  fst (animate (sample_window (update_markers fr p))
         (save_samples (sample_window (update_markers fr p)) fr ev
            (update_markers fr p))).
Proof.
  intros Ha Hf Hc Hw. unfold recent_events.
  rewrite Hf, Ha, (process_frame_live fr ev p Hc).
  destruct (animate _ _) as [q ret] eqn:E. cbn [fst].
  destruct ret; [reflexivity |].
  destruct (window q); [| reflexivity].
  now apply gl_display_in_window_stays.
Qed.

Ltac live glfw ev fr p Ha Hf Hc :=
  let E := fresh "E" in
  destruct (recent_events_live glfw ev fr p Ha Hf Hc) as [E | E];
  cbv zeta in E; rewrite E; clear E;
  autorewrite with plugin_fields;
  rewrite ?update_markers_sample_window.

Lemma recent_events_ref_list glfw ev fr p :
  is_active p = true -> frame ev = Some fr -> 0 < clicks_to_close p ->
  ref_list (recent_events glfw ev p) =
  match filter is_ref (tracked fr) with
  | m :: _ =>
      if sample_window p
      then ref_list p ++ [ {| ref_norm_pos := norm_pos m;
                              ref_screen_pos := img_pos m;
                              ref_timestamp := timestamp fr |} ]
      else ref_list p
  | [] => ref_list p
  end.
Proof. intros Ha Hf Hc. live glfw ev fr p Ha Hf Hc; reflexivity. Qed.

Lemma recent_events_pupil_list glfw ev fr p :
  is_active p = true -> frame ev = Some fr -> 0 < clicks_to_close p ->
  pupil_list (recent_events glfw ev p) = pupil_list p ++ pupil ev.
Proof. intros Ha Hf Hc. live glfw ev fr p Ha Hf Hc; reflexivity. Qed.

Lemma recent_events_clicks_to_close glfw ev p :
  clicks_to_close (recent_events glfw ev p) = clicks_to_close p.
Proof.
  unfold recent_events.
  assert (H : forall fr, clicks_to_close (fst (process_frame fr ev p))
                         = clicks_to_close p).
  { intros fr. unfold process_frame.
    destruct (clicks_to_close p <=? 0); cbn [fst];
      now autorewrite with plugin_fields. }
  destruct (frame ev) as [fr |]; [destruct (is_active p) |].
  1: specialize (H fr); destruct (process_frame fr ev p) as [q ret];
     cbn [fst] in H; destruct ret; [assumption |]; rewrite <- H.
  all: split_inner; try reflexivity.
  all: match goal with
       | |- context [gl_display_in_window ?g ?q] =>
           destruct (gl_display_in_window_cases g q) as [-> | ->]
       end; now autorewrite with plugin_fields.
Qed.

Lemma sample_window_spec p :
  sample_window p = true <->
  lead_in p < screen_marker_state p < lead_in p + sample_duration p.
Proof.
  unfold sample_window. rewrite andb_true_iff, !Z.ltb_lt. tauto.
Qed.

(** The counter after a processed frame, below the bound. *)
Lemma recent_events_counter_below glfw ev fr p :
  is_active p = true -> frame ev = Some fr -> 0 < clicks_to_close p ->
  screen_marker_state p < dwell_total p ->
  screen_marker_state (recent_events glfw ev p) =
  if (0 <? List.length (filter is_ref (tracked fr)))%nat
     || negb (sample_window p)
  then screen_marker_state p + 1
  else screen_marker_state p.
Proof.
  intros Ha Hf Hc Ht.
  set (q := update_markers fr p).
  assert (Hlt : screen_marker_state (save_samples (sample_window q) fr ev q)
                < dwell_total (save_samples (sample_window q) fr ev q)).
  { subst q. now autorewrite with plugin_fields. }
  destruct (recent_events_live glfw ev fr p Ha Hf Hc) as [E | E];
    cbv zeta in E; rewrite E; clear E; fold q;
    rewrite ?stop_screen_marker_state, (animate_below _ _ Hlt); cbn [fst];
    rewrite publish_screen_marker_state, save_samples_markers;
    subst q; rewrite update_markers_markers, update_markers_sample_window;
    destruct ((0 <? List.length (filter is_ref (tracked fr)))%nat
              || negb (sample_window p)); cbn;
    rewrite <- (update_markers_sample_window fr p);
    now autorewrite with plugin_fields.
Qed.

(** The frame at the bound: reset, then the next site or the stop. *)
Lemma recent_events_at_bound glfw ev fr p :
  is_active p = true -> frame ev = Some fr -> 0 < clicks_to_close p ->
  dwell_total p <= screen_marker_state p ->
  let p' := recent_events glfw ev p in
  screen_marker_state p' = 0
  /\ match sites p with
     | [] => is_active p' = false /\ sites p' = []
     | next :: rest =>
         active_site p' = Some next /\ sites p' = rest
         /\ on_position p' = sample_window p
     end.
Proof.
  intros Ha Hf Hc Ht p'. subst p'.
  set (q := update_markers fr p).
  assert (Hge : dwell_total (save_samples (sample_window q) fr ev q)
                <= screen_marker_state
                     (save_samples (sample_window q) fr ev q)).
  { subst q. now autorewrite with plugin_fields. }
  assert (Hs : sites (save_samples (sample_window q) fr ev q) = sites p).
  { subst q. now autorewrite with plugin_fields. }
  assert (Hw : sample_window q = sample_window p).
  { apply update_markers_sample_window. }
  destruct (recent_events_live glfw ev fr p Ha Hf Hc) as [E | E];
    cbv zeta in E; rewrite E; clear E; fold q;
    rewrite (animate_at_bound _ _ Hge), Hs;
    destruct (sites p) as [| next rest]; cbn [fst];
    autorewrite with plugin_fields; cbn; auto.
Qed.

(** The frame below the bound: the site stays, the gate is published. *)
Lemma recent_events_below glfw ev fr p :
  is_active p = true -> frame ev = Some fr -> 0 < clicks_to_close p ->
  screen_marker_state p < dwell_total p ->
  let p' := recent_events glfw ev p in
  sites p' = sites p /\ active_site p' = active_site p
  /\ on_position p' = sample_window p.
Proof.
  intros Ha Hf Hc Ht p'. subst p'.
  set (q := update_markers fr p).
  assert (Hlt : screen_marker_state (save_samples (sample_window q) fr ev q)
                < dwell_total (save_samples (sample_window q) fr ev q)).
  { subst q. now autorewrite with plugin_fields. }
  assert (Hw : sample_window q = sample_window p).
  { apply update_markers_sample_window. }
  destruct (recent_events_live glfw ev fr p Ha Hf Hc) as [E | E];
    cbv zeta in E; rewrite E; clear E; fold q;
    rewrite (animate_below _ _ Hlt); cbn [fst];
    autorewrite with plugin_fields;
    destruct (_ || _); cbn; subst q;
    autorewrite with plugin_fields; auto.
Qed.

(** ** Claims about one frame *)

(** C1 (as amended).  On a frame that is processed (routine active, video
    frame present, cancellation counter positive) a reference sample is
    appended exactly when the counter is strictly between [lead_in] and
    [lead_in + sample_duration] and at least one Ref marker was detected.
    The sample carries the positions of the first Ref marker and the
    timestamp of the frame.  With two or more Ref markers a warning is
    emitted and the sample of the first one is still appended. *)
Theorem C1_reference_sample_gate glfw ev fr p :
  is_active p = true -> frame ev = Some fr -> 0 < clicks_to_close p ->
  let t := screen_marker_state p in
  let ms := filter is_ref (tracked fr) in
  let p' := recent_events glfw ev p in
  (lead_in p < t < lead_in p + sample_duration p ->
   forall m rest, ms = m :: rest ->
   ref_list p' =
   ref_list p ++ [ {| ref_norm_pos := norm_pos m;
                      ref_screen_pos := img_pos m;
                      ref_timestamp := timestamp fr |} ])
  /\ (~ (lead_in p < t < lead_in p + sample_duration p) \/ ms = [] ->
      ref_list p' = ref_list p)
  /\ ((1 < List.length ms)%nat ->
      In (Log_warning_markers (List.length ms)) (trace p')).
Proof.
  intros Ha Hf Hc t ms p'. subst t ms p'.
  rewrite (recent_events_ref_list glfw ev fr p Ha Hf Hc).
  pose proof (sample_window_spec p) as Hsw.
  split; [| split].
  - intros Hwin m rest ->. apply Hsw in Hwin. now rewrite Hwin.
  - intros [Hout | ->]; [| reflexivity].
    destruct (sample_window p); [| now destruct (filter _ _)].
    exfalso. apply Hout, Hsw. reflexivity.
  - intros Hn.
    pose proof (update_markers_warns fr p Hn) as Hin.
    destruct (recent_events_live glfw ev fr p Ha Hf Hc) as [E | E];
      cbv zeta in E; rewrite E; clear E;
      [| apply stop_trace_In]; apply animate_trace_In;
      now rewrite save_samples_trace.
Qed.

(** C3.  With lead_in = 25, sample_duration = 40 and lead_out = 5 the gate
    is false for a counter in [0,25], true in (25,65) and false in [65,70].
    On a processed frame below 70 the published [on_position] is the gate
    and the site stays; on the frame that finds the counter at 70 the
    counter is reset to 0 and the next site of the queue becomes the active
    one (with an empty queue the routine stops instead). *)
Theorem C3_dwell_gate glfw ev fr p :
  lead_in p = 25 -> sample_duration p = 40 -> lead_out p = 5 ->
  is_active p = true -> frame ev = Some fr -> 0 < clicks_to_close p ->
  let t := screen_marker_state p in
  let p' := recent_events glfw ev p in
  (0 <= t <= 25 -> sample_window p = false)
  /\ (25 < t < 65 -> sample_window p = true)
  /\ (65 <= t <= 70 -> sample_window p = false)
  /\ (0 <= t < 70 ->
      on_position p' = sample_window p /\ sites p' = sites p
      /\ active_site p' = active_site p)
  /\ (t = 70 ->
      screen_marker_state p' = 0
      /\ match sites p with
         | next :: rest =>
             active_site p' = Some next /\ sites p' = rest
             /\ on_position p' = false
         | [] => is_active p' = false
         end).
Proof.
  intros Hli Hsd Hlo Ha Hf Hc t p'. subst t p'.
  assert (Htot : dwell_total p = 70) by (unfold dwell_total; lia).
  assert (Hgate : forall v : bool,
             (if v then 25 < screen_marker_state p < 65
              else ~ 25 < screen_marker_state p < 65) ->
             sample_window p = v).
  { intros v Hv. pose proof (sample_window_spec p) as Hsw.
    rewrite Hli, Hsd in Hsw. change (25 + 40) with 65 in Hsw.
    destruct v; [now apply Hsw |].
    destruct (sample_window p); [| reflexivity].
    exfalso. apply Hv, Hsw. reflexivity. }
  repeat split.
  - intros Ht. apply (Hgate false). lia.
  - intros Ht. apply (Hgate true). lia.
  - intros Ht. apply (Hgate false). lia.
  - apply (recent_events_below glfw ev fr p Ha Hf Hc). lia.
  - apply (recent_events_below glfw ev fr p Ha Hf Hc). lia.
  - apply (recent_events_below glfw ev fr p Ha Hf Hc). lia.
  - apply (recent_events_at_bound glfw ev fr p Ha Hf Hc). lia.
  - assert (Hge : dwell_total p <= screen_marker_state p) by lia.
    pose proof (recent_events_at_bound glfw ev fr p Ha Hf Hc Hge)
      as [_ Hsites]. cbv zeta in Hsites.
    destruct (sites p) as [| next rest]; [tauto |].
    destruct Hsites as (H1 & H2 & H3). repeat split; try assumption.
    rewrite H3. apply (Hgate false). lia.
Qed.

(** C4.  On a processed frame whose counter is below
    lead_in + sample_duration + lead_out the counter goes up by exactly one,
    unless the frame is in the sampling window and shows no Ref marker, in
    which case the counter keeps its value.  With more than one Ref marker
    the counter goes up by one. *)
Theorem C4_counter_advance glfw ev fr p :
  is_active p = true -> frame ev = Some fr -> 0 < clicks_to_close p ->
  screen_marker_state p < lead_in p + sample_duration p + lead_out p ->
  let t := screen_marker_state p in
  let n := List.length (filter is_ref (tracked fr)) in
  let t' := screen_marker_state (recent_events glfw ev p) in
  (sample_window p = true /\ n = 0%nat -> t' = t)
  /\ (~ (sample_window p = true /\ n = 0%nat) -> t' = t + 1)
  /\ ((1 < n)%nat -> t' = t + 1).
Proof.
  intros Ha Hf Hc Ht t n t'. subst t n t'.
  assert (Hlt : screen_marker_state p < dwell_total p)
    by (unfold dwell_total; lia).
  rewrite (recent_events_counter_below glfw ev fr p Ha Hf Hc Hlt).
  destruct (List.length (filter is_ref (tracked fr))) as [| k];
    destruct (sample_window p); cbn; repeat split;
    intros; try reflexivity; try lia; try tauto; intuition congruence.
Qed.

(** C9 (as amended).  On a processed frame (routine active, video frame
    present, cancellation counter positive) all items of the gaze batch are
    appended to the gaze list, whatever the counter and the number of
    markers; this includes the frame on which the routine stops because the
    site queue is exhausted. *)
Theorem C9_gaze_batch_saved glfw ev fr p :
  is_active p = true -> frame ev = Some fr -> 0 < clicks_to_close p ->
  let p' := recent_events glfw ev p in
  pupil_list p' = pupil_list p ++ pupil ev
  /\ (dwell_total p <= screen_marker_state p -> sites p = [] ->
      is_active p' = false).
Proof.
  intros Ha Hf Hc p'. subst p'. split.
  - apply (recent_events_pupil_list glfw ev fr p Ha Hf Hc).
  - intros Hge Hs.
    pose proof (recent_events_at_bound glfw ev fr p Ha Hf Hc Hge)
      as [_ H]. cbv zeta in H. rewrite Hs in H. tauto.
Qed.

(** ** What [recent_events] never changes *)

Lemma recent_events_preserves {A : Type} (f : plugin Datum -> A) :
  (forall p, f (stop p) = f p) ->
  (forall fr p, f (update_markers fr p) = f p) ->
  (forall b fr ev p, f (save_samples b fr ev p) = f p) ->
  (forall b p, f (fst (animate b p)) = f p) ->
  forall glfw ev p, f (recent_events glfw ev p) = f p.
Proof.
  intros Hstop Hum Hss Han glfw ev p.
  assert (Hpf : forall fr, f (fst (process_frame fr ev p)) = f p).
  { intros fr. unfold process_frame.
    destruct (clicks_to_close p <=? 0); cbn [fst]; [apply Hstop |].
    now rewrite Han, Hss, Hum. }
  assert (Hgl : forall q, f (gl_display_in_window glfw q) = f q).
  { intros q. destruct (gl_display_in_window_cases glfw q) as [-> | ->];
      [reflexivity | apply Hstop]. }
  unfold recent_events.
  destruct (frame ev) as [fr |]; [destruct (is_active p) |].
  1: specialize (Hpf fr); destruct (process_frame fr ev p) as [q ret];
     cbn [fst] in Hpf; destruct ret; [assumption |]; rewrite <- Hpf.
  all: split_inner; try reflexivity; apply Hgl.
Qed.

Lemma recent_events_dwell_total glfw ev p :
  dwell_total (recent_events glfw ev p) = dwell_total p.
Proof.
  apply (recent_events_preserves dwell_total); intros; unfold dwell_total;
    now autorewrite with plugin_fields.
Qed.

Lemma recent_events_lead_in glfw ev p :
  lead_in (recent_events glfw ev p) = lead_in p.
Proof.
  apply (recent_events_preserves (@lead_in Datum)); intros;
    now autorewrite with plugin_fields.
Qed.

Lemma recent_events_sample_duration glfw ev p :
  sample_duration (recent_events glfw ev p) = sample_duration p.
Proof.
  apply (recent_events_preserves (@sample_duration Datum)); intros;
    now autorewrite with plugin_fields.
Qed.

Lemma recent_events_lead_out glfw ev p :
  lead_out (recent_events glfw ev p) = lead_out p.
Proof.
  apply (recent_events_preserves (@lead_out Datum)); intros;
    now autorewrite with plugin_fields.
Qed.

(** ** Activity *)

Lemma animate_still_active b p :
  is_active (fst (animate b p)) = true ->
  is_active p = true /\ window (fst (animate b p)) = window p.
Proof.
  unfold animate, publish, stop, super_stop, close_window, emit. cbn.
  repeat (split_inner; cbn); intros; split; congruence.
Qed.

(** A routine that is active after [recent_events] was active before, and
    still has its window. *)
Lemma recent_events_still_active glfw ev p :
  is_active (recent_events glfw ev p) = true ->
  is_active p = true /\ window (recent_events glfw ev p) = window p.
Proof.
  intros Hact.
  destruct (is_active p) eqn:Ha;
    [| now rewrite (recent_events_inactive glfw ev p Ha) in Hact].
  split; [reflexivity |].
  destruct (frame ev) as [fr |] eqn:Hf.
  - destruct (Z.leb_spec (clicks_to_close p) 0) as [Hc | Hc].
    + rewrite (recent_events_cancelled glfw ev fr p Ha Hf Hc) in Hact.
      now rewrite stop_is_active in Hact.
    + destruct (recent_events_live glfw ev fr p Ha Hf Hc) as [E | E];
        cbv zeta in E; rewrite E in *; clear E;
        [| now rewrite stop_is_active in Hact].
      apply animate_still_active in Hact. destruct Hact as [_ ->].
      now autorewrite with plugin_fields.
  - revert Hact. unfold recent_events. rewrite Hf. cbn beta iota zeta.
    destruct (window p) eqn:Hw; [| now rewrite Hw].
    destruct (gl_display_in_window_cases glfw p) as [-> | ->];
      [now rewrite Hw | now rewrite stop_is_active].
Qed.

Lemma deliver_inactive (i : input Datum) p :
  is_active p = false -> is_active (deliver i p) = false.
Proof.
  intros Ha. destruct i as [glfw ev | action | key action]; cbn.
  - now apply recent_events_inactive.
  - unfold on_window_mouse_button.
    destruct (window p), (glfw_action_eqb action GLFW_PRESS); assumption.
  - unfold on_window_key.
    destruct (window p), (glfw_action_eqb action GLFW_PRESS),
      (key =? GLFW_KEY_ESCAPE); assumption.
Qed.

Lemma run_cons (i : input Datum) inputs p :
  run (i :: inputs) p = run inputs (deliver i p).
Proof. reflexivity. Qed.

Lemma run_inactive (inputs : list (input Datum)) p :
  is_active p = false -> is_active (run inputs p) = false.
Proof.
  revert p. induction inputs as [| i inputs IH]; intros p Ha;
    [assumption |].
  rewrite run_cons. apply IH. now apply deliver_inactive.
Qed.

(** ** Start *)

Lemma site_locations_some dim mode :
  exists first rest, site_locations dim mode = Some (first :: rest).
Proof. destruct dim, mode; cbn; eauto. Qed.

(** With the capture online, [start] raises no exception. *)
Lemma start_online p :
  capture_online (g_pool p) = true ->
  exists p', start p = Some p' /\ is_active p' = true /\ window p' = true
             /\ clicks_to_close p' = 5
             /\ ref_list p' = [] /\ pupil_list p' = []
             /\ screen_marker_state p' = screen_marker_state p.
Proof.
  intros Hon. unfold start. rewrite Hon. cbn [negb]. cbv zeta.
  match goal with
  | |- context [site_locations ?d ?m] =>
      destruct (site_locations_some d m) as (first & rest & ->)
  end.
  eexists. split; [reflexivity |].
  unfold open_window. cbn. destruct (window p) eqn:Hw; cbn;
    rewrite ?Hw; repeat split; reflexivity.
Qed.

(** ** Cancellation *)

Lemma start_armed p p' :
  capture_online (g_pool p) = true -> start p = Some p' -> armed 0 p'.
Proof.
  intros Hon Hst.
  destruct (start_online p Hon) as (q & Hq & _ & Hw & Hc & _).
  rewrite Hq in Hst. injection Hst as <-.
  intros _. split; [assumption |]. rewrite Hc. cbn. lia.
Qed.

Lemma deliver_armed (i : input Datum) n p :
  armed n p -> armed (n + (if is_press i then 1 else 0)) (deliver i p).
Proof.
  intros Harm. destruct i as [glfw ev | action | key action];
    cbn [deliver is_press].
  - rewrite Nat.add_0_r. intros Hact.
    apply recent_events_still_active in Hact. destruct Hact as [Ha Hw].
    rewrite Hw, recent_events_clicks_to_close. now apply Harm.
  - destruct (window p) eqn:Hw.
    + destruct action; rewrite ?Nat.add_0_r; try exact Harm.
      intros Ha. destruct (Harm Ha) as [_ Hc]. split; [exact Hw |].
      change (clicks_to_close (on_window_mouse_button GLFW_PRESS p))
        with (clicks_to_close p - 1).
      rewrite Nat2Z.inj_add. change (Z.of_nat 1) with 1. lia.
    + intros Ha. destruct (Harm Ha) as [Hw' _]. congruence.
  - rewrite Nat.add_0_r. destruct (window p) eqn:Hw; [| exact Harm].
    unfold on_window_key.
    destruct (glfw_action_eqb action GLFW_PRESS); [| exact Harm].
    destruct (key =? GLFW_KEY_ESCAPE); [| exact Harm].
    intros Ha. split; [exact Hw |].
    change (clicks_to_close (set_clicks_to_close 0 p)) with 0. lia.
Qed.

Lemma run_armed (inputs : list (input Datum)) n p :
  armed n p -> armed (n + presses inputs) (run inputs p).
Proof.
  revert n p. induction inputs as [| i inputs IH]; intros n p Harm.
  - cbn. now rewrite Nat.add_0_r.
  - rewrite run_cons.
    replace (n + presses (i :: inputs))%nat
      with ((n + (if is_press i then 1 else 0)) + presses inputs)%nat.
    + apply IH. now apply deliver_armed.
    + unfold presses. cbn [filter]. destruct (is_press i); cbn; lia.
Qed.

(** C5.  [start] sets the cancellation counter to 5; a mouse-button press
    takes exactly one off; a frame that finds the counter at or below zero
    stops the routine at once, before the tracker is consulted and before
    anything is appended, whatever the dwell counter and the site queue;
    hence after five presses the next frame stops the routine. *)
Theorem C5_cancellation :
  (forall p p' : plugin Datum,
      capture_online (g_pool p) = true -> start p = Some p' ->
      clicks_to_close p' = 5)
  /\ (forall p : plugin Datum,
      clicks_to_close (on_window_mouse_button GLFW_PRESS p)
      = clicks_to_close p - 1)
  /\ (forall glfw ev fr p,
      is_active p = true -> frame ev = Some fr -> clicks_to_close p <= 0 ->
      let p' := recent_events glfw ev p in
      p' = stop p /\ is_active p' = false
      /\ markers p' = markers p /\ ref_list p' = ref_list p
      /\ pupil_list p' = pupil_list p
      /\ screen_marker_state p' = screen_marker_state p
      /\ sites p' = sites p)
  /\ (forall p p' inputs glfw ev fr,
      capture_online (g_pool p) = true -> start p = Some p' ->
      (5 <= presses inputs)%nat -> frame ev = Some fr ->
      is_active (recent_events glfw ev (run inputs p')) = false).
Proof.
  split; [| split; [| split]].
  - intros p p' Hon Hst.
    destruct (start_online p Hon) as (q & Hq & _ & _ & Hc & _).
    rewrite Hq in Hst. now injection Hst as <-.
  - intros p. reflexivity.
  - intros glfw ev fr p Ha Hf Hc p'. subst p'.
    rewrite (recent_events_cancelled glfw ev fr p Ha Hf Hc).
    now autorewrite with plugin_fields.
  - intros p p' inputs glfw ev fr Hon Hst Hn Hf.
    pose proof (run_armed inputs 0 p' (start_armed p p' Hon Hst)) as Harm.
    destruct (is_active (run inputs p')) eqn:Ha;
      [| now apply recent_events_inactive].
    destruct (Harm Ha) as [_ Hc].
    rewrite (recent_events_cancelled glfw ev fr _ Ha Hf);
      [apply stop_is_active | lia].
Qed.

(** C10.  With the routine active and the marker window open, one press of
    the Escape key sets [clicks_to_close] to 0, whatever it was, and the
    next frame stops the routine. *)
Theorem C10_escape_cancels glfw ev fr p :
  is_active p = true -> window p = true -> frame ev = Some fr ->
  let p1 := deliver (Key GLFW_KEY_ESCAPE GLFW_PRESS) p in
  clicks_to_close p1 = 0
  /\ recent_events glfw ev p1 = stop p1
  /\ is_active (recent_events glfw ev p1) = false.
Proof.
  intros Ha Hw Hf p1.
  assert (E : p1 = set_clicks_to_close 0 p).
  { subst p1. cbn [deliver]. rewrite Hw. reflexivity. }
  rewrite E. clear E p1. split; [reflexivity |].
  assert (Hstop : recent_events glfw ev (set_clicks_to_close 0 p)
                  = stop (set_clicks_to_close 0 p)).
  { apply (recent_events_cancelled glfw ev fr);
      [exact Ha | exact Hf | cbn; lia]. }
  rewrite Hstop. split; [reflexivity | apply stop_is_active].
Qed.

(** C8.  With the capture offline, [start] logs an error and returns; the
    site queue, the active site, the two lists, the cancellation counter,
    the window, the dwell counter and the activity flag keep their
    values. *)
Theorem C8_start_requires_capture p :
  capture_online (g_pool p) = false ->
  exists p',
    start p = Some p'
    /\ trace p' = trace p ++ [Log_error_requires_capture]
    /\ sites p' = sites p /\ active_site p' = active_site p
    /\ ref_list p' = ref_list p /\ pupil_list p' = pupil_list p
    /\ clicks_to_close p' = clicks_to_close p
    /\ window p' = window p /\ is_active p' = is_active p
    /\ screen_marker_state p' = screen_marker_state p.
Proof.
  intros Hoff. unfold start. rewrite Hoff. cbn [negb].
  eexists. split; [reflexivity |]. cbn. repeat split.
Qed.

(** C7.  [__site_locations] is a total function of its two arguments: for
    each of the four combinations it returns a list, never [None]; the list
    is not empty, has 5, 4, 10 and 5 positions (3D calibration, 3D accuracy
    test, 2D calibration, 2D accuracy test) and every position lies in the
    unit square. *)
Theorem C7_site_locations dim mode :
  exists l,
    site_locations dim mode = Some l
    /\ l <> []
    /\ List.length l = catalog_size dim mode
    /\ Forall in_unit_square l.
Proof.
  assert (Hsq : forall l, forallb in_unit_squareb l = true ->
                          Forall in_unit_square l).
  { intros l H. apply Forall_forall. intros s Hs.
    rewrite forallb_forall in H. specialize (H s Hs).
    unfold in_unit_squareb in H. rewrite !andb_true_iff in H.
    rewrite !Qle_bool_iff in H. unfold in_unit_square. tauto. }
  destruct dim, mode; cbn; eexists; (split; [reflexivity |]);
    (split; [discriminate |]); (split; [reflexivity |]);
    apply Hsq; reflexivity.
Qed.

(** ** Runs *)

Lemma existsb_filter_length {A : Type} (f : A -> bool) (l : list A) :
  existsb f l = true -> (0 <? List.length (filter f l))%nat = true.
Proof.
  induction l as [| a l IH]; cbn; [discriminate |].
  destruct (f a); cbn; [reflexivity | exact IH].
Qed.

Lemma existsb_filter_nil {A : Type} (f : A -> bool) (l : list A) :
  existsb f l = false -> filter f l = [].
Proof.
  induction l as [| a l IH]; cbn; [reflexivity |].
  destruct (f a); cbn; [discriminate | exact IH].
Qed.

Lemma frames_left_pos p : 1 <= frames_left p.
Proof.
  unfold frames_left, cycle_frames.
  assert (0 <= (Z.max 0 (dwell_total p) + 1)
               * Z.of_nat (List.length (sites p))).
  { apply Z.mul_nonneg_nonneg; lia. }
  destruct (Z.ltb_spec (screen_marker_state p) (dwell_total p)); lia.
Qed.

(** A frame with a marker, on an active routine, either stops the routine
    or brings it one frame closer to the stop. *)
Lemma detecting_frame_progress glfw ev p :
  detects ev = true -> is_active p = true ->
  is_active (recent_events glfw ev p) = false
  \/ frames_left (recent_events glfw ev p) <= frames_left p - 1.
Proof.
  unfold detects. destruct (frame ev) as [fr |] eqn:Hf; [| discriminate].
  intros Hd Ha.
  destruct (Z.leb_spec (clicks_to_close p) 0) as [Hc | Hc].
  { left. rewrite (recent_events_cancelled glfw ev fr p Ha Hf Hc).
    apply stop_is_active. }
  destruct (Z.ltb_spec (screen_marker_state p) (dwell_total p))
    as [Hlt | Hge].
  - right. unfold frames_left, cycle_frames.
    rewrite recent_events_dwell_total.
    destruct (recent_events_below glfw ev fr p Ha Hf Hc Hlt) as (-> & _).
    rewrite (recent_events_counter_below glfw ev fr p Ha Hf Hc Hlt).
    rewrite (existsb_filter_length _ _ Hd). cbn [orb].
    destruct (Z.ltb_spec (screen_marker_state p) (dwell_total p));
      destruct (Z.ltb_spec (screen_marker_state p + 1) (dwell_total p));
      lia.
  - destruct (recent_events_at_bound glfw ev fr p Ha Hf Hc Hge)
      as [H0 Hsites].
    destruct (sites p) as [| next rest] eqn:Hs; [left; tauto |].
    right. destruct Hsites as (_ & Hs' & _).
    unfold frames_left, cycle_frames.
    rewrite recent_events_dwell_total, H0, Hs', Hs.
    cbn [List.length]. rewrite Nat2Z.inj_succ, Z.mul_succ_r.
    set (rest_frames := (Z.max 0 (dwell_total p) + 1)
                        * Z.of_nat (List.length rest)).
    destruct (Z.ltb_spec 0 (dwell_total p));
      destruct (Z.ltb_spec (screen_marker_state p) (dwell_total p));
      lia.
Qed.

(** C6 (as amended).  When every frame shows at least one Ref marker, the
    routine stops: it is inactive once [frames_left] frames have been
    processed, a number fixed by the dwell counter, the three durations
    and the length of the site queue.  A cancellation or the loss of the
    window only makes the stop come earlier. *)
Theorem C6_stops_when_markers_are_seen inputs p :
  forallb detecting_tick inputs = true ->
  frames_left p <= Z.of_nat (List.length inputs) ->
  is_active (run inputs p) = false.
Proof.
  revert p. induction inputs as [| i inputs IH]; intros p Hall Hlen.
  - pose proof (frames_left_pos p). cbn in Hlen. lia.
  - rewrite run_cons.
    destruct (is_active p) eqn:Ha;
      [| apply run_inactive; now apply deliver_inactive].
    cbn [forallb] in Hall. apply andb_true_iff in Hall.
    destruct Hall as [Hi Hall].
    destruct i as [glfw ev | |]; try discriminate. cbn [deliver].
    cbn [detecting_tick] in Hi.
    destruct (detecting_frame_progress glfw ev p Hi Ha) as [Hoff | Hless].
    + now apply run_inactive.
    + apply IH; [assumption |].
      cbn [List.length] in Hlen. rewrite Nat2Z.inj_succ in Hlen. lia.
Qed.

(** A frame without a marker, inside the sampling window, changes neither
    the counter nor the reference list and leaves the routine active. *)
Lemma missing_tick_stalls (i : input Datum) p :
  missing_tick i = true ->
  is_active p = true -> 0 < clicks_to_close p ->
  sample_window p = true -> screen_marker_state p < dwell_total p ->
  let p' := deliver i p in
  is_active p' = true /\ clicks_to_close p' = clicks_to_close p
  /\ screen_marker_state p' = screen_marker_state p
  /\ sample_window p' = true /\ dwell_total p' = dwell_total p
  /\ ref_list p' = ref_list p.
Proof.
  destruct i as [glfw ev | |]; try discriminate.
  cbn [missing_tick deliver]. unfold misses.
  destruct (frame ev) as [fr |] eqn:Hf; [| now rewrite andb_false_r].
  intros Hm Ha Hc Hsw Hlt. apply andb_true_iff in Hm.
  destruct Hm as [Hstay Hnone]. apply negb_true_iff in Hnone.
  pose proof (existsb_filter_nil _ _ Hnone) as Hnil.
  assert (Ht : screen_marker_state (recent_events glfw ev p)
               = screen_marker_state p).
  { rewrite (recent_events_counter_below glfw ev fr p Ha Hf Hc Hlt).
    now rewrite Hnil, Hsw. }
  cbv zeta. repeat split.
  - rewrite (recent_events_live_stays glfw ev fr p Ha Hf Hc Hstay).
    set (q := update_markers fr p).
    assert (Hlt' : screen_marker_state
                     (save_samples (sample_window q) fr ev q)
                   < dwell_total (save_samples (sample_window q) fr ev q)).
    { subst q. now autorewrite with plugin_fields. }
    rewrite (animate_below _ _ Hlt'). cbn [fst].
    rewrite publish_is_active. destruct (_ || _); cbn; subst q;
      now autorewrite with plugin_fields.
  - apply recent_events_clicks_to_close.
  - exact Ht.
  - unfold sample_window in *.
    now rewrite recent_events_lead_in, recent_events_sample_duration, Ht.
  - apply recent_events_dwell_total.
  - rewrite (recent_events_ref_list glfw ev fr p Ha Hf Hc).
    now rewrite Hnil.
Qed.

(** While no marker is seen, a routine in its sampling window waits: it
    stays active, with the same counter, for as many frames as come. *)
Lemma dropout_stalls (inputs : list (input Datum)) p :
  forallb missing_tick inputs = true ->
  is_active p = true -> 0 < clicks_to_close p ->
  sample_window p = true -> screen_marker_state p < dwell_total p ->
  is_active (run inputs p) = true
  /\ screen_marker_state (run inputs p) = screen_marker_state p
  /\ ref_list (run inputs p) = ref_list p.
Proof.
  revert p. induction inputs as [| i inputs IH];
    intros p Hall Ha Hc Hsw Hlt; [now repeat split |].
  cbn [forallb] in Hall. apply andb_true_iff in Hall.
  destruct Hall as [Hi Hall]. rewrite run_cons.
  destruct (missing_tick_stalls i p Hi Ha Hc Hsw Hlt)
    as (Ha' & Hc' & Ht' & Hsw' & Htot' & Hr').
  destruct (IH (deliver i p) Hall Ha') as (H1 & H2 & H3);
    [lia | assumption | lia |].
  repeat split; congruence.
Qed.

(** ** Runs with one marker per frame *)

Lemma recent_events_idle glfw ev p :
  is_active p = false -> window_stays glfw = true ->
  recent_events glfw ev p = p.
Proof.
  intros Ha Hw. unfold recent_events. rewrite Ha.
  destruct (frame ev); cbn beta iota zeta;
    destruct (window p); try reflexivity;
    now apply gl_display_in_window_stays.
Qed.

(** With the window in place, only an exhausted queue ends the routine. *)
Lemma recent_events_is_active_stays glfw ev fr p :
  is_active p = true -> frame ev = Some fr -> 0 < clicks_to_close p ->
  window_stays glfw = true ->
  is_active (recent_events glfw ev p) =
  if screen_marker_state p <? dwell_total p then true
  else match sites p with
       | [] => false
       | _ :: _ => true
       end.
Proof.
  intros Ha Hf Hc Hw.
  rewrite (recent_events_live_stays glfw ev fr p Ha Hf Hc Hw).
  set (q := update_markers fr p).
  assert (Ht : screen_marker_state (save_samples (sample_window q) fr ev q)
               = screen_marker_state p)
    by (subst q; now autorewrite with plugin_fields).
  assert (Htot : dwell_total (save_samples (sample_window q) fr ev q)
                 = dwell_total p)
    by (subst q; now autorewrite with plugin_fields).
  assert (Hs : sites (save_samples (sample_window q) fr ev q) = sites p)
    by (subst q; now autorewrite with plugin_fields).
  assert (Hq : is_active (save_samples (sample_window q) fr ev q) = true)
    by (subst q; now autorewrite with plugin_fields).
  destruct (Z.ltb_spec (screen_marker_state p) (dwell_total p)).
  - rewrite animate_below by lia. cbn [fst]. rewrite publish_is_active.
    destruct (_ || _); cbn; exact Hq.
  - rewrite animate_at_bound by lia. rewrite Hs.
    destruct (sites p); cbn [fst];
      [apply stop_is_active | rewrite publish_is_active; exact Hq].
Qed.

(** The scenario's durations: one frame with one marker moves the tally of
    the plugin as follows. *)
Lemma single_marker_tick_tally (i : input Datum) p :
  single_marker_tick i = true ->
  lead_in p = 25 -> sample_duration p = 40 -> lead_out p = 5 ->
  0 < clicks_to_close p ->
  tally_of (deliver i p) = tally_step (tally_of p).
Proof.
  unfold tally_step.
  destruct i as [glfw ev | |]; try discriminate.
  cbn [single_marker_tick deliver]. intros Hi Hli Hsd Hlo Hc.
  apply andb_true_iff in Hi. destruct Hi as [Hw Hi].
  destruct (frame ev) as [fr |] eqn:Hf; [| discriminate].
  apply Nat.eqb_eq in Hi.
  assert (Htot : dwell_total p = 70) by (unfold dwell_total; lia).
  assert (Hsw : sample_window p
                = (25 <? screen_marker_state p)
                  && (screen_marker_state p <? 65)).
  { unfold sample_window. now rewrite Hli, Hsd. }
  destruct (is_active p) eqn:Ha;
    [| rewrite (recent_events_idle glfw ev p Ha Hw); unfold tally_of;
       now rewrite Ha].
  unfold tally_of. rewrite Ha.
  rewrite (recent_events_is_active_stays glfw ev fr p Ha Hf Hc Hw), Htot.
  rewrite (recent_events_ref_list glfw ev fr p Ha Hf Hc), Hsw.
  destruct (filter is_ref (tracked fr)) as [| m rest] eqn:Hms;
    [discriminate |].
  destruct (Z.ltb_spec (screen_marker_state p) 70) as [Hlt | Hge].
  - destruct (recent_events_below glfw ev fr p Ha Hf Hc) as (-> & _);
      [lia |].
    rewrite (recent_events_counter_below glfw ev fr p Ha Hf Hc) by lia.
    rewrite Hms. cbn [List.length Nat.ltb Nat.leb orb].
    destruct ((25 <? screen_marker_state p) && (screen_marker_state p <? 65));
      [| reflexivity].
    rewrite length_app, Nat.add_1_r. reflexivity.
  - destruct (recent_events_at_bound glfw ev fr p Ha Hf Hc) as [-> Hsites];
      [lia |].
    assert (Hout : (25 <? screen_marker_state p)
                   && (screen_marker_state p <? 65) = false).
    { apply andb_false_iff. right. apply Z.ltb_ge. lia. }
    rewrite Hout.
    destruct (sites p) as [| next rest']; cbn [List.length].
    + destruct Hsites as [_ ->]. reflexivity.
    + destruct Hsites as (_ & -> & _). reflexivity.
Qed.

Lemma one_marker_run_tally (inputs : list (input Datum)) p :
  forallb single_marker_tick inputs = true ->
  lead_in p = 25 -> sample_duration p = 40 -> lead_out p = 5 ->
  0 < clicks_to_close p ->
  tally_of (run inputs p)
  = fold_left (fun T _ => tally_step T) inputs (tally_of p).
Proof.
  revert p. induction inputs as [| i inputs IH];
    intros p Hall Hli Hsd Hlo Hc; [reflexivity |].
  cbn [forallb] in Hall. apply andb_true_iff in Hall.
  destruct Hall as [Hi Hall]. rewrite run_cons. cbn [fold_left].
  rewrite <- (single_marker_tick_tally i p Hi Hli Hsd Hlo Hc).
  destruct i as [glfw ev | |]; try discriminate. cbn [deliver].
  apply IH; try assumption.
  - now rewrite recent_events_lead_in.
  - now rewrite recent_events_sample_duration.
  - now rewrite recent_events_lead_out.
  - now rewrite recent_events_clicks_to_close.
Qed.

Lemma fold_tally_step {A : Type} (l : list A) (T : tally) :
  fold_left (fun T _ => tally_step T) l T
  = Nat.iter (List.length l) tally_step T.
Proof.
  revert T. induction l as [| a l IH]; intros T; [reflexivity |].
  cbn [fold_left List.length]. rewrite IH.
  now rewrite Nat.iter_succ_r.
Qed.


Lemma start_2d_calibration p :
  capture_online (g_pool p) = true ->
  detection_mapping_mode (g_pool p) = "2d"%string ->
  current_mode p = CALIBRATION ->
  exists p',
    start p = Some p' /\ is_active p' = true /\ clicks_to_close p' = 5
    /\ screen_marker_state p' = screen_marker_state p
    /\ List.length (sites p') = 9%nat /\ ref_list p' = []
    /\ lead_in p' = lead_in p /\ sample_duration p' = sample_duration p
    /\ lead_out p' = lead_out p.
Proof.
  intros Hon Hm Hc. unfold start. rewrite Hon. cbn [negb]. cbv zeta.
  match goal with
  | |- context [site_locations ?d ?m] =>
      change (site_locations d m)
        with (site_locations
                (if String.eqb (detection_mapping_mode (g_pool p)) "3d"
                 then GAZE_3D else GAZE_2D) (current_mode p))
  end.
  rewrite Hm, Hc.
  change (site_locations (if ("2d" =? "3d")%string then GAZE_3D else GAZE_2D)
            CALIBRATION)
    with (Some [ (1#4, 1#2); (0, 1#2); (0, 1); (1#2, 1); (1, 1);
                 (1, 1#2); (1, 0); (1#2, 0); (0, 0); (3#4, 1#2) ]%Q).
  cbv iota. eexists. split; [reflexivity |].
  unfold open_window. cbn.
  destruct (window p) eqn:Hw; cbn; rewrite ?Hw; repeat split; reflexivity.
Qed.
(** The end-to-end scenario for any frames: started for a 2D calibration
    with the default durations and fed frames that each show exactly one
    Ref marker, whatever their positions, timestamps and gaze batches, the
    routine has 386 reference samples and is still active after 700 frames,
    and stops with 390 samples on frame 710. *)
Theorem one_marker_scenario pool (inputs : list (input Datum)) p :
  capture_online pool = true -> detection_mapping_mode pool = "2d"%string ->
  start (init Datum pool CALIBRATION 40) = Some p ->
  forallb single_marker_tick inputs = true ->
  (List.length inputs = 700%nat ->
   tally_of (run inputs p) = (true, 61, 0%nat, 386%nat))
  /\ (List.length inputs = 710%nat ->
      tally_of (run inputs p) = (false, 0, 0%nat, 390%nat)).
Proof.
  intros Hon Hmode Hst Hall.
  destruct (start_2d_calibration (init Datum pool CALIBRATION 40))
    as (q & Hq & Ha & Hc & Ht & Hs & Hr & Hli & Hsd & Hlo);
    try assumption; try reflexivity.
  rewrite Hq in Hst. injection Hst as <-.
  assert (Htally : tally_of q = (true, 0, 9%nat, 0%nat)).
  { unfold tally_of. now rewrite Ha, Ht, Hs, Hr. }
  split; intros Hlen;
    (rewrite one_marker_run_tally, fold_tally_step, Hlen, Htally;
     [now vm_compute | assumption | now rewrite Hli | now rewrite Hsd
     | now rewrite Hlo | lia]).
Qed.

(** ** Further properties of the plugin *)

Lemma hand_overs_app (a b : list (effect Datum)) :
  hand_overs (a ++ b) = hand_overs a ++ hand_overs b.
Proof.
  induction a as [| e a IH]; [reflexivity |].
  cbn. destruct (handed_over e); cbn; now rewrite IH.
Qed.

Lemma stop_hand_overs p :
  hand_overs (trace (stop p))
  = hand_overs (trace p) ++ [(pupil_list p, ref_list p)].
Proof.
  unfold stop, super_stop, close_window, emit. cbn.
  destruct (window p) eqn:Hw; cbn; rewrite ?Hw; cbn;
    destruct (current_mode p) eqn:Hm; cbn; rewrite ?Hm; cbn;
    rewrite !hand_overs_app; cbn; now rewrite ?app_nil_r.
Qed.

Lemma update_markers_hand_overs fr p :
  hand_overs (trace (update_markers fr p)) = hand_overs (trace p).
Proof.
  unfold update_markers, emit. cbn.
  repeat (split_inner; cbn); rewrite ?hand_overs_app; cbn;
    now rewrite ?app_nil_r.
Qed.

(** The outcome of the three stages of a processed frame. *)
Lemma live_outcome fr ev p :
  let q := update_markers fr p in
  let r := animate (sample_window q) (save_samples (sample_window q) fr ev q)
  in
  processed fr ev p (fst r) (snd r).
Proof.
  intros q r. subst r.
  set (s := save_samples (sample_window q) fr ev q).
  assert (Hw : sample_window q = sample_window p)
    by apply update_markers_sample_window.
  assert (Ht : screen_marker_state s = screen_marker_state p)
    by (subst s q; now autorewrite with plugin_fields).
  assert (Htot : dwell_total s = dwell_total p)
    by (subst s q; now autorewrite with plugin_fields).
  assert (Hs : sites s = sites p)
    by (subst s q; now autorewrite with plugin_fields).
  assert (Has : active_site s = active_site p)
    by (subst s q; now autorewrite with plugin_fields).
  assert (Hact : is_active s = is_active p)
    by (subst s q; now autorewrite with plugin_fields).
  assert (Hwin : window s = window p)
    by (subst s q; now autorewrite with plugin_fields).
  assert (Hm : markers s = filter is_ref (tracked fr))
    by (subst s q; now autorewrite with plugin_fields).
  assert (Hho : hand_overs (trace s) = hand_overs (trace p)).
  { subst s q. rewrite save_samples_trace.
    apply update_markers_hand_overs. }
  assert (Hr : ref_list s
               = ref_list p
                 ++ (if sample_window p then frame_samples fr else [])).
  { subst s q. autorewrite with plugin_fields. rewrite Hw.
    unfold frame_samples.
    destruct (filter is_ref (tracked fr)), (sample_window p);
      now rewrite ?app_nil_r. }
  assert (Hp : pupil_list s = pupil_list p ++ pupil ev)
    by (subst s q; now autorewrite with plugin_fields).
  unfold processed.
  rewrite animate_ref_list, animate_pupil_list, animate_clicks_to_close,
    animate_lead_in, animate_sample_duration, animate_lead_out.
  split; [exact Hr |]. split; [exact Hp |].
  split; [subst s q; now autorewrite with plugin_fields |].
  split; [subst s q; now autorewrite with plugin_fields |].
  split; [subst s q; now autorewrite with plugin_fields |].
  split; [subst s q; now autorewrite with plugin_fields |].
  destruct (Z.ltb_spec (screen_marker_state p) (dwell_total p)).
  - rewrite animate_below by lia. cbn [fst snd].
    rewrite Hm, Hw.
    destruct ((0 <? List.length (filter is_ref (tracked fr)))%nat
              || negb (sample_window p)); cbn;
      repeat split; assumption || (now rewrite Ht).
  - rewrite animate_at_bound by lia. rewrite Hs.
    destruct (sites p) as [| next rest]; cbn [fst snd].
    + rewrite stop_hand_overs.
      autorewrite with plugin_fields. cbn.
      repeat split; try assumption. now rewrite Hho.
    + cbn. rewrite hand_overs_app. cbn. rewrite app_nil_r.
      repeat split; assumption.
Qed.

(** The ways in which [recent_events] ends: nothing happens; the window
    goes away while no frame is processed; a cancellation is seen; or the
    frame is processed, with a stop on top when the window goes away. *)
Lemma recent_events_outcome glfw ev p :
  (recent_events glfw ev p = p
   /\ (frame ev = None \/ is_active p = false))
  \/ (recent_events glfw ev p = stop p /\ window p = true
      /\ (frame ev = None \/ is_active p = false))
  \/ (recent_events glfw ev p = stop p /\ is_active p = true
      /\ frame ev <> None /\ clicks_to_close p <= 0)
  \/ exists fr q ret,
       frame ev = Some fr /\ is_active p = true /\ 0 < clicks_to_close p
       /\ processed fr ev p q ret
       /\ (recent_events glfw ev p = q
           \/ (ret = false /\ window q = true
               /\ recent_events glfw ev p = stop q)).
Proof.
  assert (Hidle : frame ev = None \/ is_active p = false ->
                  recent_events glfw ev p
                  = (if window p then gl_display_in_window glfw p else p)).
  { intros [Hf | Ha]; unfold recent_events; [now rewrite Hf |].
    rewrite Ha. now destruct (frame ev). }
  assert (Hidle' : frame ev = None \/ is_active p = false ->
                   (recent_events glfw ev p = p
                    /\ (frame ev = None \/ is_active p = false))
                   \/ (recent_events glfw ev p = stop p /\ window p = true
                       /\ (frame ev = None \/ is_active p = false))).
  { intros H. rewrite (Hidle H).
    destruct (window p) eqn:Hw; [| now left].
    destruct (gl_display_in_window_cases glfw p) as [-> | ->];
      [now left | now right]. }
  destruct (frame ev) as [fr |] eqn:Hf;
    [| destruct Hidle' as [H | H]; [now left | now left | now right; left]].
  destruct (is_active p) eqn:Ha;
    [| destruct Hidle' as [H | H]; [now right | now left | now right; left]].
  clear Hidle Hidle'.
  destruct (Z.leb_spec (clicks_to_close p) 0) as [Hc | Hc].
  { right; right; left. repeat split; [| discriminate | assumption].
    apply (recent_events_cancelled glfw ev fr p Ha Hf Hc). }
  right; right; right.
  pose proof (live_outcome fr ev p) as Hout. cbv zeta in Hout.
  unfold recent_events. rewrite Hf, Ha, (process_frame_live fr ev p Hc).
  destruct (animate _ _) as [q ret]. cbn [fst snd] in Hout.
  exists fr, q, ret.
  split; [reflexivity |]. split; [reflexivity |].
  split; [exact Hc |]. split; [exact Hout |].
  destruct ret; [now left |].
  destruct (window q) eqn:Hw; [| now left].
  destruct (gl_display_in_window_cases glfw q) as [-> | ->];
    [now left | right; now repeat split].
Qed.

Ltac open_processed H :=
  let Hanim := fresh "Hanim" in
  unfold processed in H;
  destruct H as (Hrefs & Hpup & Hclk & Hli & Hsd & Hlo & Hanim);
  match type of Hanim with
  | if ?a <? ?b then _ else _ =>
      revert Hanim;
      destruct (Z.ltb_spec a b) as [Hbelow | Hbound];
      intros Hanim
  end;
  [ destruct Hanim as (Hret & Ht & Hsites & Hsite & Hact & Hwin & Hho)
  | match type of Hanim with
    | match ?l with | [] => _ | _ :: _ => _ end =>
        let next := fresh "next" in
        let rest := fresh "rest" in
        destruct l as [| next rest] eqn:Hqueue;
        destruct Hanim as (Hret & Ht & Hsites & Hsite & Hact & Hwin & Hho)
    end ].

Ltac outcomes glfw ev p :=
  let E := fresh "E" in
  destruct (recent_events_outcome glfw ev p)
    as [(E & Hidle)
       | [(E & Hopen & Hidle)
         | [(E & Hactive & Hframe & Hcancel)
           | (fr & q & ret & Hframe & Hactive & Hclicks & Hproc
              & [E | (Hnoret & Hopen & E)])]]];
  rewrite E in *; clear E.

(** *** The window and the activity flag *)

Lemma recent_events_window_activity glfw ev p :
  window p = is_active p ->
  window (recent_events glfw ev p) = is_active (recent_events glfw ev p).
Proof.
  intros Hinv. outcomes glfw ev p;
    rewrite ?stop_window, ?stop_is_active; try reflexivity;
    try assumption.
  open_processed Hproc; congruence.
Qed.

Lemma deliver_window_activity (i : input Datum) p :
  window p = is_active p ->
  window (deliver i p) = is_active (deliver i p).
Proof.
  intros Hinv. destruct i as [glfw ev | action | key action];
    cbn [deliver].
  - now apply recent_events_window_activity.
  - unfold on_window_mouse_button.
    destruct (window p) eqn:Hw, (glfw_action_eqb action GLFW_PRESS); cbn;
      congruence.
  - unfold on_window_key.
    destruct (window p) eqn:Hw, (glfw_action_eqb action GLFW_PRESS),
      (key =? GLFW_KEY_ESCAPE); cbn; congruence.
Qed.

Lemma perform_window_activity (c : call) p p' :
  window p = is_active p -> perform c p = Some p' ->
  window p' = is_active p'.
Proof.
  intros Hinv Hc. destruct c as [| | i]; cbn [perform] in Hc.
  - destruct (capture_online (g_pool p)) eqn:Hon.
    + destruct (start_online p Hon) as (q & Hq & Ha & Hw & _).
      rewrite Hq in Hc. injection Hc as <-. congruence.
    + unfold start in Hc. rewrite Hon in Hc. cbn [negb] in Hc.
      injection Hc as <-. exact Hinv.
  - injection Hc as <-. now rewrite stop_window, stop_is_active.
  - injection Hc as <-. now apply deliver_window_activity.
Qed.

(** The marker window exists exactly while the routine is active: every
    sequence of calls of [start], [stop], [recent_events] and the two
    window callbacks keeps [window = is_active]. *)
Theorem window_tracks_activity (cs : list call) p p' :
  window p = is_active p -> perform_all cs p = Some p' ->
  window p' = is_active p'.
Proof.
  revert p. induction cs as [| c cs IH]; intros p Hinv Hrun;
    cbn [perform_all] in Hrun.
  - injection Hrun as <-. exact Hinv.
  - destruct (perform c p) as [p1 |] eqn:Hc; [| discriminate].
    apply (IH p1); [| exact Hrun].
    now apply (perform_window_activity c p).
Qed.

(** *** Hand-over of the collected lists *)

(** The lists are handed to the finish method exactly when a call of
    [recent_events] takes the routine from active to inactive, once, and
    they are the lists as that call leaves them. *)
Theorem hand_over_on_stop glfw ev p :
  window p = is_active p ->
  let p' := recent_events glfw ev p in
  hand_overs (trace p')
  = hand_overs (trace p)
    ++ (if is_active p && negb (is_active p')
        then [(pupil_list p', ref_list p')]
        else []).
Proof.
  intros Hinv p'. subst p'. outcomes glfw ev p.
  - now rewrite andb_negb_r, app_nil_r.
  - assert (Ha : is_active p = true) by congruence.
    rewrite stop_hand_overs, stop_is_active, Ha.
    now autorewrite with plugin_fields.
  - rewrite stop_hand_overs, stop_is_active, Hactive.
    now autorewrite with plugin_fields.
  - rewrite Hactive. open_processed Hproc; rewrite Hho, Hact, ?Hactive;
      cbn; now rewrite ?app_nil_r.
  - rewrite Hactive, stop_hand_overs, stop_is_active.
    autorewrite with plugin_fields. cbn.
    open_processed Hproc; try congruence.
Qed.

(** *** Growth of the two lists *)

Lemma deliver_ref_list (i : input Datum) p :
  exists b : bool,
    ref_list (deliver i p)
    = ref_list p ++ (if b then offered_samples i else []).
Proof.
  destruct i as [glfw ev | action | key action]; cbn [deliver].
  - outcomes glfw ev p; autorewrite with plugin_fields.
    1-3: exists false; now rewrite app_nil_r.
    all: exists (sample_window p); cbn [offered_samples]; rewrite Hframe;
      unfold processed in Hproc; now destruct Hproc as [-> _].
  - exists false. rewrite app_nil_r. unfold on_window_mouse_button.
    now destruct (window p), (glfw_action_eqb action GLFW_PRESS).
  - exists false. rewrite app_nil_r. unfold on_window_key.
    now destruct (window p), (glfw_action_eqb action GLFW_PRESS),
      (key =? GLFW_KEY_ESCAPE).
Qed.

(** The reference list only grows, and what a run adds to it are the
    samples of some of its frames (first Ref marker, frame timestamp), at
    most one per frame, in the order of the frames. *)
Theorem ref_list_grows_by_frame_samples (inputs : list (input Datum)) p :
  exists mask,
    List.length mask = List.length inputs
    /\ ref_list (run inputs p)
       = ref_list p ++ selected_samples mask inputs.
Proof.
  revert p. induction inputs as [| i inputs IH]; intros p.
  - exists []. split; [reflexivity |]. cbn. now rewrite app_nil_r.
  - rewrite run_cons.
    destruct (deliver_ref_list i p) as [b Hb].
    destruct (IH (deliver i p)) as (mask & Hlen & Hrun).
    exists (b :: mask). split; [cbn; now rewrite Hlen |].
    rewrite Hrun, Hb. cbn [selected_samples]. now rewrite app_assoc.
Qed.

Lemma deliver_pupil_list (i : input Datum) p :
  is_active (deliver i p) = true ->
  pupil_list (deliver i p) = pupil_list p ++ gaze_batch i.
Proof.
  destruct i as [glfw ev | action | key action]; cbn [deliver gaze_batch].
  - outcomes glfw ev p; rewrite ?stop_is_active; try discriminate;
      intros Ha.
    + destruct Hidle as [-> | Hoff]; [now rewrite app_nil_r | congruence].
    + rewrite Hframe. unfold processed in Hproc.
      now destruct Hproc as (_ & -> & _).
  - intros _. rewrite app_nil_r. unfold on_window_mouse_button.
    now destruct (window p), (glfw_action_eqb action GLFW_PRESS).
  - intros _. rewrite app_nil_r. unfold on_window_key.
    now destruct (window p), (glfw_action_eqb action GLFW_PRESS),
      (key =? GLFW_KEY_ESCAPE).
Qed.

(** As long as the routine is active no gaze datum is lost: the gaze list
    of a run that ends active is the old list followed by the batches of
    all ticks that carried a video frame, in order. *)
Theorem gaze_list_complete_while_active (inputs : list (input Datum)) p :
  is_active (run inputs p) = true ->
  pupil_list (run inputs p) = pupil_list p ++ flat_map gaze_batch inputs.
Proof.
  revert p. induction inputs as [| i inputs IH]; intros p Ha.
  - cbn. now rewrite app_nil_r.
  - rewrite run_cons in *. cbn [flat_map].
    assert (Hi : is_active (deliver i p) = true).
    { destruct (is_active (deliver i p)) eqn:E; [reflexivity |].
      now rewrite (run_inactive inputs _ E) in Ha. }
    rewrite (IH _ Ha), (deliver_pupil_list i p Hi). now rewrite app_assoc.
Qed.

(** *** The dwell counter and the site queue *)

Lemma deliver_dwell_total (i : input Datum) p :
  dwell_total (deliver i p) = dwell_total p.
Proof.
  destruct i as [glfw ev | action | key action]; cbn [deliver].
  - apply recent_events_dwell_total.
  - unfold on_window_mouse_button.
    now destruct (window p), (glfw_action_eqb action GLFW_PRESS).
  - unfold on_window_key.
    now destruct (window p), (glfw_action_eqb action GLFW_PRESS),
      (key =? GLFW_KEY_ESCAPE).
Qed.

(** One input keeps the counter, adds one to it below the bound, or
    resets it. *)
Lemma deliver_counter (i : input Datum) p :
  screen_marker_state (deliver i p) = screen_marker_state p
  \/ (screen_marker_state p < dwell_total p
      /\ screen_marker_state (deliver i p) = screen_marker_state p + 1)
  \/ screen_marker_state (deliver i p) = 0.
Proof.
  destruct i as [glfw ev | action | key action]; cbn [deliver].
  - outcomes glfw ev p; autorewrite with plugin_fields; auto.
    all: open_processed Hproc; rewrite Ht; auto.
    all: destruct (_ || _); auto.
  - left. unfold on_window_mouse_button.
    now destruct (window p), (glfw_action_eqb action GLFW_PRESS).
  - left. unfold on_window_key.
    now destruct (window p), (glfw_action_eqb action GLFW_PRESS),
      (key =? GLFW_KEY_ESCAPE).
Qed.

(** A counter between zero and the bound stays there, whatever the frames,
    the markers and the clicks. *)
Theorem counter_stays_in_range (inputs : list (input Datum)) p :
  0 <= screen_marker_state p <= dwell_total p ->
  0 <= screen_marker_state (run inputs p) <= dwell_total p.
Proof.
  revert p. induction inputs as [| i inputs IH]; intros p Hrange;
    [exact Hrange |].
  rewrite run_cons, <- (deliver_dwell_total i p).
  apply IH. rewrite deliver_dwell_total.
  destruct (deliver_counter i p) as [-> | [[Hlt ->] | ->]]; lia.
Qed.

(** One input keeps the queue and the active site, or makes the head of
    the queue the active site. *)
Lemma deliver_sites (i : input Datum) p :
  (sites (deliver i p) = sites p
   /\ active_site (deliver i p) = active_site p)
  \/ exists next,
       sites p = next :: sites (deliver i p)
       /\ active_site (deliver i p) = Some next.
Proof.
  destruct i as [glfw ev | action | key action]; cbn [deliver].
  - outcomes glfw ev p; autorewrite with plugin_fields; auto.
    all: open_processed Hproc; rewrite Hsites, Hsite; auto.
    all: right; exists next; auto.
  - left. unfold on_window_mouse_button.
    now destruct (window p), (glfw_action_eqb action GLFW_PRESS).
  - left. unfold on_window_key.
    now destruct (window p), (glfw_action_eqb action GLFW_PRESS),
      (key =? GLFW_KEY_ESCAPE).
Qed.

(** The sites are shown in the order of the queue and none is skipped:
    after a run, some number [k] of sites has been taken off the front of
    the queue, and the active site is the last of them, or the old one
    when [k] is zero. *)
Theorem sites_visited_in_order (inputs : list (input Datum)) p :
  exists k,
    sites (run inputs p) = skipn k (sites p)
    /\ active_site (run inputs p)
       = match k with
         | O => active_site p
         | S j => nth_error (sites p) j
         end.
Proof.
  revert p. induction inputs as [| i inputs IH]; intros p.
  - exists 0%nat. split; reflexivity.
  - rewrite run_cons.
    destruct (IH (deliver i p)) as (k & Hs & Ha).
    destruct (deliver_sites i p) as [[Es Ea] | (next & Es & Ea)].
    + exists k. rewrite Hs, Ha, Es, Ea. split; reflexivity.
    + exists (S k). rewrite Hs, Ha, Es. cbn [skipn]. split; [reflexivity |].
      destruct k; [exact Ea | reflexivity].
Qed.

(** *** After the stop *)

(** A stopped routine ignores everything until the next start: frames are
    not processed and, the window being gone, no click or key arrives. *)
Theorem stopped_ignores_inputs (inputs : list (input Datum)) p :
  run inputs (stop p) = stop p.
Proof.
  induction inputs as [| i inputs IH]; [reflexivity |].
  rewrite run_cons.
  assert (E : deliver i (stop p) = stop p); [| now rewrite E].
  destruct i as [glfw ev | action | key action]; cbn [deliver];
    rewrite ?stop_window; try reflexivity.
  unfold recent_events. rewrite stop_is_active.
  destruct (frame ev); cbn beta iota zeta; now rewrite stop_window.
Qed.

(** *** Progress *)

(** No input takes progress back: an active routine stays at least as
    close to its stop, and a frame with a marker brings it closer. *)
Lemma deliver_frames_left (i : input Datum) p :
  is_active (deliver i p) = true ->
  frames_left (deliver i p)
  <= frames_left p - (if detecting_tick i then 1 else 0).
Proof.
  destruct i as [glfw ev | action | key action];
    cbn [deliver detecting_tick].
  - intros Ha. destruct (recent_events_still_active glfw ev p Ha) as [Hp _].
    destruct (detects ev) eqn:Hd.
    + destruct (detecting_frame_progress glfw ev p Hd Hp); [congruence |].
      assumption.
    + revert Ha. outcomes glfw ev p; rewrite ?stop_is_active;
        try discriminate; intros Ha; [lia |].
      unfold frames_left, cycle_frames, dwell_total.
      open_processed Hproc; rewrite Hli, Hsd, Hlo, Ht, Hsites;
        fold (dwell_total p).
      * destruct (_ || _);
          repeat match goal with
                 | |- context [?a <? ?b] => destruct (Z.ltb_spec a b)
                 end; lia.
      * congruence.
      * cbn [List.length]. rewrite Nat2Z.inj_succ, Z.mul_succ_r.
        set (rest_frames := (Z.max 0 (dwell_total p) + 1)
                            * Z.of_nat (List.length rest)).
        repeat match goal with
               | |- context [?a <? ?b] => destruct (Z.ltb_spec a b)
               end; lia.
  - intros _. unfold on_window_mouse_button.
    destruct (window p), (glfw_action_eqb action GLFW_PRESS);
      unfold frames_left, cycle_frames, dwell_total; cbn; lia.
  - intros _. unfold on_window_key.
    destruct (window p), (glfw_action_eqb action GLFW_PRESS),
      (key =? GLFW_KEY_ESCAPE);
      unfold frames_left, cycle_frames, dwell_total; cbn; lia.
Qed.

(** Frames without a marker only delay the routine: whatever else comes in
    between, once [frames_left] frames with a Ref marker have arrived the
    routine has stopped. *)
Theorem stops_after_enough_detections (inputs : list (input Datum)) p :
  frames_left p
  <= Z.of_nat (List.length (filter detecting_tick inputs)) ->
  is_active (run inputs p) = false.
Proof.
  revert p. induction inputs as [| i inputs IH]; intros p Hn.
  - pose proof (frames_left_pos p). cbn in Hn. lia.
  - rewrite run_cons.
    destruct (is_active (deliver i p)) eqn:Ha;
      [| now apply run_inactive].
    apply IH. pose proof (deliver_frames_left i p Ha) as Hstep.
    cbn [filter] in Hn. destruct (detecting_tick i);
      [cbn [List.length] in Hn; rewrite Nat2Z.inj_succ in Hn |]; lia.
Qed.

(** *** The cancellation counter *)

Lemma deliver_click_count (i : input Datum) n p :
  is_escape i = false ->
  (is_active p = true ->
   window p = true /\ clicks_to_close p = 5 - Z.of_nat n) ->
  is_active (deliver i p) = true ->
  window (deliver i p) = true
  /\ clicks_to_close (deliver i p)
     = 5 - Z.of_nat (n + (if is_press i then 1 else 0)).
Proof.
  intros Hesc Hinv. destruct i as [glfw ev | action | key action];
    cbn [deliver is_press].
  - rewrite Nat.add_0_r. intros Hact.
    apply recent_events_still_active in Hact. destruct Hact as [Ha Hw].
    rewrite Hw, recent_events_clicks_to_close. now apply Hinv.
  - destruct (window p) eqn:Hw;
      [| intros Ha; destruct (Hinv Ha); congruence].
    intros Ha.
    destruct action; rewrite ?Nat.add_0_r;
      (destruct (Hinv Ha) as [_ Hc]; split; [exact Hw |]);
      try exact Hc.
    change (clicks_to_close (on_window_mouse_button GLFW_PRESS p))
      with (clicks_to_close p - 1).
    rewrite Nat2Z.inj_add. change (Z.of_nat 1) with 1. lia.
  - rewrite Nat.add_0_r. destruct (window p) eqn:Hw;
      [| intros Ha; destruct (Hinv Ha); congruence].
    unfold on_window_key. cbn [is_escape] in Hesc.
    destruct action; cbn [glfw_action_eqb]; rewrite ?Hesc;
      intros Ha; destruct (Hinv Ha) as [_ Hc]; split; assumption.
Qed.

Lemma run_click_count (inputs : list (input Datum)) n p :
  forallb (fun i => negb (is_escape i)) inputs = true ->
  (is_active p = true ->
   window p = true /\ clicks_to_close p = 5 - Z.of_nat n) ->
  is_active (run inputs p) = true ->
  window (run inputs p) = true
  /\ clicks_to_close (run inputs p) = 5 - Z.of_nat (n + presses inputs).
Proof.
  revert n p. induction inputs as [| i inputs IH]; intros n p Hall Hinv Ha.
  - cbn. rewrite Nat.add_0_r. now apply Hinv.
  - cbn [forallb] in Hall. apply andb_true_iff in Hall.
    destruct Hall as [Hi Hall]. apply negb_true_iff in Hi.
    rewrite run_cons in *.
    replace (n + presses (i :: inputs))%nat
      with ((n + (if is_press i then 1 else 0)) + presses inputs)%nat.
    + apply IH; try assumption.
      now apply deliver_click_count.
    + unfold presses. cbn [filter]. destruct (is_press i); cbn; lia.
Qed.

(** While the routine started by [start] is active and Escape has not been
    pressed, the cancellation counter is five minus the number of mouse
    presses since the start; so the text that asks for more touches is not
    drawn before the first press, and from then on shows that number. *)
Theorem clicks_count_presses (inputs : list (input Datum)) p p' :
  capture_online (g_pool p) = true -> start p = Some p' ->
  forallb (fun i => negb (is_escape i)) inputs = true ->
  is_active (run inputs p') = true ->
  clicks_to_close (run inputs p') = 5 - Z.of_nat (presses inputs)
  /\ cancel_prompt (run inputs p')
     = match presses inputs with
       | O => None
       | S _ => Some (5 - Z.of_nat (presses inputs))
       end.
Proof.
  intros Hon Hst Hall Ha.
  destruct (start_online p Hon) as (q & Hq & _ & Hw & Hc & _).
  rewrite Hq in Hst. injection Hst as <-.
  destruct (run_click_count inputs 0 q Hall) as [_ Hclicks];
    [intros _; split; [exact Hw | rewrite Hc; reflexivity] | exact Ha |].
  cbn [Nat.add] in Hclicks. split; [exact Hclicks |].
  unfold cancel_prompt. rewrite Hclicks.
  destruct (presses inputs) as [| k]; [reflexivity |].
  destruct (Z.ltb_spec (5 - Z.of_nat (S k)) 5); [reflexivity | lia].
Qed.

(** *** Samples per site *)

Lemma slots_left_nonneg p : 0 <= slots_left p.
Proof. unfold slots_left. lia. Qed.

Lemma frame_samples_length fr :
  (List.length (frame_samples fr) <= 1)%nat
  /\ (List.length (frame_samples fr) = 1%nat ->
      (0 <? List.length (filter is_ref (tracked fr)))%nat = true).
Proof.
  unfold frame_samples. destruct (filter is_ref (tracked fr)); cbn;
    split; auto; discriminate.
Qed.

(** The samples taken plus the sampling slots still open at the present
    site never go up, as long as the queue keeps its length. *)
Lemma deliver_sampling_budget (i : input Datum) p :
  List.length (sites (deliver i p)) = List.length (sites p) ->
  Z.of_nat (List.length (ref_list (deliver i p)))
  + (if is_active (deliver i p) then slots_left (deliver i p) else 0)
  <= Z.of_nat (List.length (ref_list p))
     + (if is_active p then slots_left p else 0).
Proof.
  destruct i as [glfw ev | action | key action]; cbn [deliver].
  - intros Hlen. pose proof (slots_left_nonneg p) as Hnn.
    revert Hlen.
    outcomes glfw ev p; rewrite ?stop_is_active, ?stop_ref_list,
      ?stop_sites; intros Hlen.
    + lia.
    + destruct (is_active p); lia.
    + destruct (is_active p); lia.
    + rewrite Hactive.
      pose proof (sample_window_spec p) as Hsw.
      destruct (frame_samples_length fr) as [Hle Hone].
      unfold slots_left in *.
      open_processed Hproc; rewrite Hrefs, Hact, ?Hactive, ?Hli, ?Hsd, ?Ht;
        rewrite length_app.
      * destruct (sample_window p) eqn:Hw.
        -- assert (Hin : lead_in p < screen_marker_state p
                         < lead_in p + sample_duration p)
             by now apply Hsw.
           destruct (List.length (frame_samples fr)) as [| [| k]] eqn:Hk;
             [| rewrite (Hone eq_refl) | lia]; cbn [orb negb];
             repeat match goal with
                    | |- context [if ?c then _ else _] => destruct c
                    end; lia.
        -- cbn [List.length]. rewrite orb_true_r. lia.
      * destruct (sample_window p) eqn:Hw; cbn [List.length]; [| lia].
        assert (Hin : lead_in p < screen_marker_state p
                      < lead_in p + sample_duration p)
          by now apply Hsw.
        lia.
      * rewrite Hsites in Hlen. cbn [List.length] in Hlen. lia.
    + pose proof (sample_window_spec p) as Hsw.
      destruct (frame_samples_length fr) as [Hle Hone].
      rewrite Hactive. unfold slots_left in *.
      open_processed Hproc; try congruence; rewrite Hrefs, length_app.
      * destruct (sample_window p) eqn:Hw; cbn [List.length]; [| lia].
        assert (Hin : lead_in p < screen_marker_state p
                      < lead_in p + sample_duration p)
          by now apply Hsw.
        lia.
      * rewrite Hsites in Hlen. cbn [List.length] in Hlen. lia.
  - intros _. unfold on_window_mouse_button.
    destruct (window p), (glfw_action_eqb action GLFW_PRESS);
      unfold slots_left; cbn; lia.
  - intros _. unfold on_window_key.
    destruct (window p), (glfw_action_eqb action GLFW_PRESS),
      (key =? GLFW_KEY_ESCAPE); unfold slots_left; cbn; lia.
Qed.

Lemma deliver_sites_length (i : input Datum) p :
  (List.length (sites (deliver i p)) <= List.length (sites p))%nat.
Proof.
  destruct (deliver_sites i p) as [[-> _] | (next & -> & _)]; cbn; lia.
Qed.

Lemma run_sites_length (inputs : list (input Datum)) p :
  (List.length (sites (run inputs p)) <= List.length (sites p))%nat.
Proof.
  revert p. induction inputs as [| i inputs IH]; intros p; [reflexivity |].
  rewrite run_cons. specialize (IH (deliver i p)).
  pose proof (deliver_sites_length i p). lia.
Qed.

(** However the markers flicker, a site gives at most
    [sample_duration - 1] reference samples: a run that does not take a
    site off the queue adds no more than that to the reference list. *)
Theorem samples_per_site_bounded (inputs : list (input Datum)) p :
  List.length (sites (run inputs p)) = List.length (sites p) ->
  Z.of_nat (List.length (ref_list (run inputs p)))
  <= Z.of_nat (List.length (ref_list p)) + Z.max 0 (sample_duration p - 1).
Proof.
  intros Hlen.
  assert (Hbudget :
            Z.of_nat (List.length (ref_list (run inputs p)))
            + (if is_active (run inputs p)
               then slots_left (run inputs p) else 0)
            <= Z.of_nat (List.length (ref_list p))
               + (if is_active p then slots_left p else 0)).
  { revert p Hlen. induction inputs as [| i inputs IH]; intros p Hlen;
      [apply Z.le_refl |].
    rewrite run_cons in *.
    pose proof (run_sites_length inputs (deliver i p)) as H1.
    pose proof (deliver_sites_length i p) as H2.
    assert (Hi : List.length (sites (deliver i p)) = List.length (sites p))
      by lia.
    specialize (IH (deliver i p)).
    pose proof (deliver_sampling_budget i p Hi). lia. }
  pose proof (slots_left_nonneg (run inputs p)).
  assert (slots_left p <= Z.max 0 (sample_duration p - 1))
    by (unfold slots_left; lia).
  pose proof (slots_left_nonneg p).
  destruct (is_active (run inputs p)), (is_active p); lia.
Qed.

(** *** Start after a cancellation *)

Lemma stop_g_pool p : g_pool (stop p) = g_pool p.
Proof. frame_rule. Qed.

Lemma start_online_settings p p' :
  capture_online (g_pool p) = true -> start p = Some p' ->
  lead_in p' = lead_in p /\ sample_duration p' = sample_duration p
  /\ lead_out p' = lead_out p.
Proof.
  intros Hon. unfold start. rewrite Hon. cbn [negb]. cbv zeta.
  match goal with
  | |- context [site_locations ?d ?m] =>
      destruct (site_locations_some d m) as (first & rest & ->)
  end.
  intros H. injection H as <-.
  unfold open_window. cbn. destruct (window p) eqn:Hw; cbn;
    repeat split; reflexivity.
Qed.


(** *** Shutdown *)

(** [deinit_ui] leaves the routine inactive and the window closed, and
    hands the lists over once if, and only if, the routine was active;
    this for any base-class method that touches neither the activity flag
    nor the window nor the finish methods. *)
Theorem deinit_ui_stops (super_deinit_ui : plugin Datum -> plugin Datum) p :
  (forall q, is_active (super_deinit_ui q) = is_active q) ->
  (forall q, window (super_deinit_ui q) = window q) ->
  (forall q, hand_overs (trace (super_deinit_ui q)) = hand_overs (trace q)) ->
  let p' := deinit_ui super_deinit_ui p in
  is_active p' = false /\ window p' = false
  /\ hand_overs (trace p')
     = hand_overs (trace p)
       ++ (if is_active p then [(pupil_list p, ref_list p)] else []).
Proof.
  intros Hact Hwin Hho p'. subst p'. unfold deinit_ui.
  rewrite Hact, Hwin, Hho.
  destruct (is_active p) eqn:Ha.
  - rewrite stop_window. rewrite stop_is_active, stop_window.
    split; [reflexivity |]. split; [reflexivity |]. apply stop_hand_overs.
  - unfold close_window. destruct (window p) eqn:Hw; cbn;
      rewrite ?Ha, ?Hw, ?app_nil_r; repeat split; reflexivity.
Qed.

(** *** What is drawn *)

Lemma recent_events_drawn glfw ev fr p :
  is_active p = true -> frame ev = Some fr -> 0 < clicks_to_close p ->
  is_active (recent_events glfw ev p) = true ->
  markers (recent_events glfw ev p) = filter is_ref (tracked fr)
  /\ on_position (recent_events glfw ev p) = sample_window p.
Proof.
  intros Ha Hf Hc Hact.
  set (q := update_markers fr p).
  set (s := save_samples (sample_window q) fr ev q).
  assert (Hw : sample_window q = sample_window p)
    by apply update_markers_sample_window.
  assert (Hs : sites s = sites p)
    by (subst s q; now autorewrite with plugin_fields).
  assert (Hm : markers s = filter is_ref (tracked fr))
    by (subst s q; now autorewrite with plugin_fields).
  destruct (recent_events_live glfw ev fr p Ha Hf Hc) as [E | E];
    cbv zeta in E; fold q in E; fold s in E; rewrite E in *; clear E;
    [| now rewrite stop_is_active in Hact].
  rewrite animate_markers, Hm. split; [reflexivity |].
  destruct (Z.ltb_spec (screen_marker_state s) (dwell_total s)).
  - rewrite animate_below by assumption. cbn [fst].
    now rewrite publish_on_position.
  - rewrite animate_at_bound in * by assumption.
    destruct (sites s); cbn [fst] in *;
      [now rewrite stop_is_active in Hact |].
    now rewrite publish_on_position.
Qed.

(** The feedback dot tells whether the frame gave a reference sample: after
    a processed frame that leaves the routine active, the dot is green
    exactly when that frame's sample was appended to the reference list. *)
Theorem feedback_dot_marks_samples glfw ev fr p :
  is_active p = true -> frame ev = Some fr -> 0 < clicks_to_close p ->
  is_active (recent_events glfw ev p) = true ->
  let p' := recent_events glfw ev p in
  (feedback_green p' = true ->
   exists r, frame_samples fr = [r] /\ ref_list p' = ref_list p ++ [r])
  /\ (feedback_green p' = false -> ref_list p' = ref_list p).
Proof.
  intros Ha Hf Hc Hact p'. subst p'. unfold feedback_green.
  destruct (recent_events_drawn glfw ev fr p Ha Hf Hc Hact) as [-> ->].
  rewrite (recent_events_ref_list glfw ev fr p Ha Hf Hc).
  unfold frame_samples.
  destruct (filter is_ref (tracked fr)) as [| m rest];
    destruct (sample_window p); cbn; split; try discriminate; eauto.
Qed.

(** On every frame that can give a reference sample the marker is drawn
    fully opaque: with the counter inside the sampling window before the
    frame, the opacity computed after it is exactly 1.0.  The float
    arithmetic is arbitrary; of the comparison only its agreement with the
    integers up to 2^53 is used. *)
Theorem marker_opaque_while_sampling {F : Type} {ops : FloatOps F}
  glfw ev fr p :
  compares_integers ->
  0 <= lead_in p -> lead_in p + sample_duration p <= float_exact_bound ->
  is_active p = true -> frame ev = Some fr -> 0 < clicks_to_close p ->
  sample_window p = true -> 0 <= lead_out p ->
  marker_alpha (recent_events glfw ev p) = of_int 1.
Proof.
  intros Hcmp Hli Hmax Ha Hf Hc Hsw Hlo.
  apply sample_window_spec in Hsw.
  assert (Hlt : screen_marker_state p < dwell_total p)
    by (unfold dwell_total; lia).
  unfold marker_alpha, interp_fn.
  rewrite recent_events_lead_in, recent_events_sample_duration.
  rewrite (recent_events_counter_below glfw ev fr p Ha Hf Hc Hlt).
  destruct (_ || _); rewrite !Hcmp by lia;
    repeat match goal with
           | |- context [?a <? ?b] => destruct (Z.ltb_spec a b); try lia
           end; reflexivity.
Qed.

Lemma Q_ops_compare : @compares_integers Q Q_ops.
Proof.
  intros a b _ _. cbn. unfold Qle_bool. cbn. rewrite !Z.mul_1_r.
  now rewrite Z.ltb_antisym.
Qed.

End Properties.

(** * Settings and monitors *)

Lemma py_index_in_range {A : Type} (l : list A) (i : Z) :
  0 <= i < Z.of_nat (List.length l) ->
  exists a, py_index l i = Some a /\ nth_error l (Z.to_nat i) = Some a.
Proof.
  intros Hi. unfold py_index.
  destruct (Z.leb_spec 0 i); [| lia].
  destruct (Z.ltb_spec i (Z.of_nat (List.length l))); [| lia]. cbn.
  destruct (nth_error l (Z.to_nat i)) as [a |] eqn:E; [eauto |].
  apply nth_error_None in E. lia.
Qed.

(** [open_window] fails only in fullscreen mode without any monitor; a
    window that is not fullscreen is 640 by 360 whatever the monitors. *)
Theorem choose_monitor_fails_without_monitor monitors s :
  (choose_monitor monitors s = None
   <-> fullscreen s = true /\ monitors = [])
  /\ (fullscreen s = false ->
      choose_monitor monitors s
      = Some (s, {| request_monitor := None; request_width := 640;
                    request_height := 360 |}, false)).
Proof.
  unfold choose_monitor. split.
  - destruct (fullscreen s); [| split; [discriminate | intros []; discriminate]].
    destruct (py_index monitors (monitor_idx s)) eqn:E1;
      [split; [discriminate | intros [_ ->]; now destruct (monitor_idx s)] |].
    cbn [monitor_idx]. destruct monitors as [| m ms];
      [split; [now split | reflexivity] |].
    destruct (py_index_in_range (m :: ms) 0) as (a & -> & _);
      [cbn [List.length]; lia |].
    split; [discriminate | intros [_ H]; discriminate].
  - intros ->. reflexivity.
Qed.


(** The dictionary of [get_init_dict] restores the three settings it
    holds, and nothing else: a plugin constructed from it has the default
    sample duration of 40 frames, whatever the duration of the plugin that
    was saved. *)
Theorem init_dict_round_trip {Datum : Type} pool mode
  (self : @screen_marker Datum) :
  init_kwargs pool mode (get_init_dict (ui self))
  = Some {| choreography := init Datum pool mode 40; ui := ui self |}.
Proof.
  destruct self as [core [f scale idx]]. reflexivity.
Qed.

(** * The claims on the concrete run *)

Ltac by_evaluation :=
  vm_compute; repeat split;
  first [ reflexivity | discriminate | intro; discriminate ].

Lemma start_fresh : start fresh = Some started.
Proof. by_evaluation. Qed.
(** C1, counterexample.  After 30 frames the counter is 30, inside the
    sampling window; a frame with two Ref markers appends a reference
    sample, that of the first marker. *)
Lemma C1_two_markers_still_sampled :
  let p := run (one_marker_run 30) started in
  let p' := recent_events quiet (two_marker_events 31) p in
  is_active p = true
  /\ 0 < clicks_to_close p
  /\ lead_in p < screen_marker_state p < lead_in p + sample_duration p
  /\ List.length (filter is_ref [ref_marker (1 # 2, 1 # 2)%Q;
                                 ref_marker (1 # 4, 1 # 4)%Q]) = 2%nat
  /\ ref_list p' =
     ref_list p ++ [ {| ref_norm_pos := (1 # 2, 1 # 2)%Q;
                        ref_screen_pos := (640 * (1 # 2), 360 * (1 # 2))%Q;
                        ref_timestamp := inject_Z 31 |} ].
Proof. by_evaluation. Qed.

(** C1 at counter 30, on a frame with two Ref markers: the sample of the
    first marker is appended. *)
Lemma C1_reference_sample_gate_witness :
  ref_list (recent_events quiet (two_marker_events 31) (at_counter 30)) =
  ref_list (at_counter 30)
  ++ [ {| ref_norm_pos := norm_pos (ref_marker (1 # 2, 1 # 2)%Q);
          ref_screen_pos := img_pos (ref_marker (1 # 2, 1 # 2)%Q);
          ref_timestamp := inject_Z 31 |} ].
Proof.
  refine (proj1 (C1_reference_sample_gate quiet (two_marker_events 31)
                   {| timestamp := inject_Z 31;
                      tracked := [ref_marker (1 # 2, 1 # 2)%Q;
                                  ref_marker (1 # 4, 1 # 4)%Q] |}
                   (at_counter 30) _ _ _) _ _ _ _); by_evaluation.
Defined.

(** C2, evaluated.  The queue of the 2D calibration has 10 sites, the first
    of which [start] makes the active one.  With one Ref marker on every
    frame the routine is still active after 700 frames, on its last site
    with the counter at 61 and 386 reference samples; it stops on frame 710
    with 390 samples, 39 from each site: those of the frames that found the
    counter between 26 and 64. *)
Theorem C2_end_to_end_run :
  (exists l, site_locations GAZE_2D CALIBRATION = Some l
             /\ List.length l = 10%nat
             /\ active_site started = Some (hd (0, 0)%Q l)
             /\ sites started = tl l)
  /\ (let p := run (one_marker_run 700) started in
      is_active p = true /\ sites p = []
      /\ screen_marker_state p = 61
      /\ List.length (ref_list p) = 386%nat)
  /\ (let p := run (one_marker_run 709) started in
      is_active p = true /\ List.length (ref_list p) = 390%nat)
  /\ (let p := run (one_marker_run 710) started in
      is_active p = false
      /\ List.length (ref_list p) = 390%nat
      /\ map ref_timestamp (ref_list p)
         = map (fun n => inject_Z (Z.of_nat n)) (sampled_frames 710)
      /\ List.length (sampled_frames 71) = 39%nat).
Proof.
  split; [| split; [| split]].
  - eexists. split; [reflexivity |]. by_evaluation.
  - by_evaluation.
  - by_evaluation.
  - by_evaluation.
Qed.

(** C3 at the ends of the three ranges and on the frame that finds the
    counter at 70. *)
Lemma C3_dwell_gate_witness :
  sample_window (at_counter 25) = false
  /\ sample_window (at_counter 26) = true
  /\ sample_window (at_counter 64) = true
  /\ sample_window (at_counter 65) = false
  /\ screen_marker_state
       (recent_events quiet (frame_events 71 []) (at_counter 70)) = 0.
Proof.
  assert (H : forall t,
             lead_in (at_counter t) = 25
             /\ sample_duration (at_counter t) = 40
             /\ lead_out (at_counter t) = 5
             /\ is_active (at_counter t) = true
             /\ frame (frame_events 71 [])
                = Some {| timestamp := inject_Z 71; tracked := [] |}
             /\ 0 < clicks_to_close (at_counter t)).
  { intros t. by_evaluation. }
  pose proof (fun t =>
                match H t with
                | conj h1 (conj h2 (conj h3 (conj h4 (conj h5 h6)))) =>
                    C3_dwell_gate quiet (frame_events 71 []) _
                      (at_counter t) h1 h2 h3 h4 h5 h6
                end) as G.
  cbv zeta in G.
  split; [apply (proj1 (G 25)); by_evaluation |].
  split; [apply (proj1 (proj2 (G 26))); by_evaluation |].
  split; [apply (proj1 (proj2 (G 64))); by_evaluation |].
  split; [apply (proj1 (proj2 (proj2 (G 65)))); by_evaluation |].
  apply (proj2 (proj2 (proj2 (proj2 (G 70))))). by_evaluation.
Defined.

(** C4 at counter 30: a frame without a Ref marker keeps the counter, a
    frame with two Ref markers moves it to 31. *)
Lemma C4_counter_advance_witness :
  screen_marker_state
    (recent_events quiet (frame_events 31 [stop_marker]) (at_counter 30))
  = 30
  /\ screen_marker_state
       (recent_events quiet (two_marker_events 31) (at_counter 30))
     = 31.
Proof.
  split.
  - refine (proj1 (C4_counter_advance quiet (frame_events 31 [stop_marker])
                     {| timestamp := inject_Z 31; tracked := [stop_marker] |}
                     (at_counter 30) _ _ _ _) _); by_evaluation.
  - refine (proj2 (proj2 (C4_counter_advance quiet (two_marker_events 31)
                            {| timestamp := inject_Z 31;
                               tracked := [ref_marker (1 # 2, 1 # 2)%Q;
                                           ref_marker (1 # 4, 1 # 4)%Q] |}
                            (at_counter 30) _ _ _ _)) _); by_evaluation.
Defined.

(** C5 on a run of three frames and five clicks: the fourth frame stops the
    routine. *)
Lemma C5_cancellation_witness :
  clicks_to_close started = 5
  /\ is_active
       (recent_events quiet (frame_events 4 [])
          (run (one_marker_run 3 ++ repeat (MouseButton GLFW_PRESS) 5)
               started))
     = false.
Proof.
  destruct (@C5_cancellation unit) as (H1 & _ & _ & H4). split.
  - apply (H1 fresh started); by_evaluation.
  - apply (H4 fresh started _ quiet _
              {| timestamp := inject_Z 4; tracked := [] |});
      by_evaluation.
Defined.

(** C6, counterexample.  The three durations times the ten sites make 700
    frames.  With no Ref marker in sight and no click, the routine is still
    active after 700 frames, waiting on its first site with the counter at
    26. *)
Lemma C6_dropout_run_does_not_stop :
  let p := run (dropout_run 700) started in
  (lead_in started + sample_duration started + lead_out started)
  * Z.of_nat (catalog_size GAZE_2D CALIBRATION) = 700
  /\ List.length (dropout_run 700) = 700%nat
  /\ clicks_to_close p = 5
  /\ is_active p = true
  /\ screen_marker_state p = 26
  /\ List.length (sites p) = 9%nat.
Proof. by_evaluation. Qed.

(** C6 on the run with one marker per frame: 710 frames are enough. *)
Lemma C6_stops_when_markers_are_seen_witness :
  is_active (run (one_marker_run 710) started) = false.
Proof.
  apply C6_stops_when_markers_are_seen; by_evaluation.
Defined.

(** C8 on a fresh plugin whose capture is offline. *)
Lemma C8_start_requires_capture_witness :
  exists p',
    start (init unit pool_offline CALIBRATION 40) = Some p'
    /\ sites p' = [] /\ clicks_to_close p' = 5 /\ window p' = false
    /\ is_active p' = false.
Proof.
  assert (Hoff : capture_online
                   (g_pool (init unit pool_offline CALIBRATION 40)) = false)
    by by_evaluation.
  destruct (C8_start_requires_capture
              (init unit pool_offline CALIBRATION 40) Hoff)
    as (p' & Hs & _ & H1 & _ & _ & _ & H2 & H3 & H4 & _).
  exists p'. repeat split; assumption.
Defined.

(** C9, counterexample.  After five clicks the routine is active with the
    counter at zero; the next frame, which carries one gaze datum, stops
    the routine and leaves the gaze list as it was. *)
Lemma C9_cancelled_frame_drops_gaze :
  let p := run (one_marker_run 3 ++ repeat (MouseButton GLFW_PRESS) 5)
               started in
  let ev := frame_events 4 [ref_marker (1 # 4, 1 # 2)%Q] in
  let p' := recent_events quiet ev p in
  is_active p = true
  /\ clicks_to_close p = 0
  /\ frame ev <> None
  /\ pupil ev = [tt]
  /\ pupil_list p = [tt; tt; tt]
  /\ pupil_list p' = [tt; tt; tt]
  /\ is_active p' = false.
Proof. by_evaluation. Qed.

(** C9 on the first frame after the start. *)
Lemma C9_gaze_batch_saved_witness :
  pupil_list (recent_events quiet (frame_events 1 []) started) = [tt].
Proof.
  refine (proj1 (C9_gaze_batch_saved quiet (frame_events 1 [])
                   {| timestamp := inject_Z 1; tracked := [] |}
                   started _ _ _)); by_evaluation.
Defined.

(** C10 right after the start. *)
Lemma C10_escape_cancels_witness :
  is_active
    (recent_events quiet (frame_events 1 [])
       (deliver (Key GLFW_KEY_ESCAPE GLFW_PRESS) started))
  = false.
Proof.
  refine (proj2 (proj2 (C10_escape_cancels quiet (frame_events 1 [])
                          {| timestamp := inject_Z 1; tracked := [] |}
                          started _ _ _))); by_evaluation.
Defined.

(** * The further properties on concrete data *)

(** Start, one frame and stop from a fresh plugin. *)
Lemma window_tracks_activity_witness :
  window (stop (deliver (one_marker_tick 1) started))
  = is_active (stop (deliver (one_marker_tick 1) started)).
Proof.
  apply (window_tracks_activity short_session fresh); by_evaluation.
Defined.

(** The frame after Escape hands the lists over. *)
Lemma hand_over_on_stop_witness :
  hand_overs (trace (recent_events quiet (frame_events 1 []) escaped))
  = hand_overs (trace escaped)
    ++ (if is_active escaped
           && negb (is_active
                      (recent_events quiet (frame_events 1 []) escaped))
        then [(pupil_list (recent_events quiet (frame_events 1 []) escaped),
               ref_list (recent_events quiet (frame_events 1 []) escaped))]
        else []).
Proof.
  apply (hand_over_on_stop quiet (frame_events 1 []) escaped).
  by_evaluation.
Defined.

(** Five frames, five gaze data. *)
Lemma gaze_list_complete_while_active_witness :
  pupil_list (run (one_marker_run 5) started)
  = pupil_list started ++ flat_map gaze_batch (one_marker_run 5).
Proof.
  apply gaze_list_complete_while_active. by_evaluation.
Defined.

Lemma counter_stays_in_range_witness :
  0 <= screen_marker_state (run (one_marker_run 100) started)
  <= dwell_total started.
Proof.
  apply counter_stays_in_range. by_evaluation.
Defined.

(** 50 frames without a marker, then 710 with one. *)
Lemma stops_after_enough_detections_witness :
  is_active (run (dropout_run 50 ++ one_marker_run 710) started) = false.
Proof.
  apply stops_after_enough_detections. by_evaluation.
Defined.

Lemma clicks_count_presses_witness :
  clicks_to_close (run clicked_twice started)
  = 5 - Z.of_nat (presses clicked_twice)
  /\ cancel_prompt (run clicked_twice started)
     = match presses clicked_twice with
       | O => None
       | S _ => Some (5 - Z.of_nat (presses clicked_twice))
       end.
Proof.
  apply (clicks_count_presses clicked_twice fresh started); by_evaluation.
Defined.

(** The first site, 70 frames with a marker. *)
Lemma samples_per_site_bounded_witness :
  Z.of_nat (List.length (ref_list (run (one_marker_run 70) started)))
  <= Z.of_nat (List.length (ref_list started))
     + Z.max 0 (sample_duration started - 1).
Proof.
  apply samples_per_site_bounded. by_evaluation.
Defined.


(** Shutdown of the started routine, with a base class that does
    nothing. *)
Lemma deinit_ui_stops_witness :
  is_active (deinit_ui (fun q => q) started) = false
  /\ window (deinit_ui (fun q => q) started) = false
  /\ hand_overs (trace (deinit_ui (fun q => q) started))
     = hand_overs (trace started)
       ++ (if is_active started
           then [(pupil_list started, ref_list started)] else []).
Proof.
  apply (deinit_ui_stops (fun q => q) started); reflexivity.
Defined.

Lemma feedback_dot_marks_samples_witness :
  let p' := recent_events quiet (two_marker_events 31) (at_counter 30) in
  (feedback_green p' = true ->
   exists r,
     frame_samples {| timestamp := inject_Z 31;
                      tracked := [ref_marker (1 # 2, 1 # 2)%Q;
                                  ref_marker (1 # 4, 1 # 4)%Q] |} = [r]
     /\ ref_list p' = ref_list (at_counter 30) ++ [r])
  /\ (feedback_green p' = false -> ref_list p' = ref_list (at_counter 30)).
Proof.
  apply (feedback_dot_marks_samples quiet (two_marker_events 31)
           {| timestamp := inject_Z 31;
              tracked := [ref_marker (1 # 2, 1 # 2)%Q;
                          ref_marker (1 # 4, 1 # 4)%Q] |}
           (at_counter 30)); by_evaluation.
Defined.

(** With exact arithmetic, at counter 30. *)
Lemma marker_opaque_while_sampling_witness :
  @marker_alpha unit Q Q_ops
    (recent_events quiet (two_marker_events 31) (at_counter 30))
  = 1%Q.
Proof.
  apply (@marker_opaque_while_sampling unit Q Q_ops quiet
           (two_marker_events 31)
           {| timestamp := inject_Z 31;
              tracked := [ref_marker (1 # 2, 1 # 2)%Q;
                          ref_marker (1 # 4, 1 # 4)%Q] |}
           (at_counter 30) Q_ops_compare); by_evaluation.
Defined.

Lemma choose_monitor_fails_without_monitor_witness :
  choose_monitor [] stale_settings = None.
Proof.
  apply (proj1 (choose_monitor_fails_without_monitor [] stale_settings)).
  split; reflexivity.
Defined.


Lemma one_marker_scenario_witness :
  tally_of (run (one_marker_run 700) started) = (true, 61, 0%nat, 386%nat).
Proof.
  apply (proj1 (one_marker_scenario pool_2d (one_marker_run 700) started
                  eq_refl eq_refl start_fresh
                  (eq_refl : forallb single_marker_tick (one_marker_run 700)
                             = true))).
  reflexivity.
Defined.

(** Ten frames without a marker at counter 30. *)
Lemma dropout_stalls_witness :
  is_active (run (dropout_run 10) (at_counter 30)) = true
  /\ screen_marker_state (run (dropout_run 10) (at_counter 30)) = 30
  /\ ref_list (run (dropout_run 10) (at_counter 30))
     = ref_list (at_counter 30).
Proof.
  apply (dropout_stalls (dropout_run 10) (at_counter 30)); by_evaluation.
Defined.
